(** * py-upnp-no-lib: [open_upnp_port] of [main.py]

    A shallow embedding of the UPnP port-opening routine: SSDP discovery over
    UDP, retrieval of the device description, selection of the
    [WANIPConnection] control URL and the SOAP [AddPortMapping] request.

    The Python function talks to the outside world only through library
    calls ([socket], [http.client], [xml.etree.ElementTree], [logging]).  Each
    such call is answered by a field of an environment record [Env]; what the
    function itself computes (string tests, the regular expression, the walk
    over the service elements, the SOAP text, the control flow with its early
    returns and its two exception handlers) is written out below. *)

From Stdlib Require Import String Ascii Strings.Byte DecimalString DecimalPos.
From Stdlib Require Import ZArith NArith Bool Lia List.
Import ListNotations.

Set Implicit Arguments.

(** ** Python [str] values *)

Module Str.

(** A Python [str] is a sequence of Unicode code points. *)
Definition char := N.
Definition str := list char.

(** A literal of the source, character by character. *)
Definition lit (s : string) : str :=
  List.map N_of_ascii (list_ascii_of_string s).

Definition LF : char := 10%N.
Definition CR : char := 13%N.
Definition slash : char := 47%N.
Definition quote : str := [34%N].

Fixpoint eqb (a b : str) : bool :=
  match a, b with
  | [], [] => true
  | x :: a', y :: b' => N.eqb x y && eqb a' b'
  | _, _ => false
  end.

(** [s.startswith(p)] *)
Fixpoint startswith (p s : str) : bool :=
  match p, s with
  | [], _ => true
  | _ :: _, [] => false
  | x :: p', y :: s' => N.eqb x y && startswith p' s'
  end.

(** [p in s] *)
Fixpoint contains (p s : str) : bool :=
  startswith p s ||
  match s with
  | [] => false
  | _ :: s' => contains p s'
  end.

(** [s.endswith(p)] *)
Definition endswith (p s : str) : bool :=
  startswith (rev p) (rev s).

(** [s.split(sep)] for a one-character separator: always at least one
    piece, and an empty piece between two adjacent separators. *)
Fixpoint split (sep : char) (s : str) : list str :=
  match s with
  | [] => [[]]
  | c :: s' =>
      if N.eqb c sep then [] :: split sep s'
      else match split sep s' with
           | [] => [[c]]
           | w :: ws => (c :: w) :: ws
           end
  end.

(** [sep.join(parts)] *)
Fixpoint join (sep : str) (parts : list str) : str :=
  match parts with
  | [] => []
  | [x] => x
  | x :: rest => x ++ sep ++ join sep rest
  end.

(** [str(n)] for an [int]: the decimal digits, with a minus sign below
    zero (what an f-string field [{port_number}] renders). *)
Definition of_int (n : Z) : str :=
  lit (NilZero.string_of_int (Z.to_int n)).

End Str.

Import Str.

(** ** [bytes.decode()]: strict UTF-8 *)

Module Utf8.

Definition bytes := list byte.

Definition cont (b : N) : bool := (128 <=? b)%N && (b <? 192)%N.

Definition low6 (b : N) : N := N.land b 63.

(** A code point is accepted when it is not an overlong form (it needs the
    length it was written with), not a surrogate, and at most U+10FFFF. *)
Definition scalar (lo cp : N) : bool :=
  (lo <=? cp)%N && (cp <=? 1114111)%N &&
  negb ((55296 <=? cp)%N && (cp <=? 57343)%N).

(** [None] stands for [UnicodeDecodeError]. *)
Fixpoint decode_N (bs : list N) : option str :=
  match bs with
  | [] => Some []
  | b0 :: r =>
      if (b0 <? 128)%N then option_map (cons b0) (decode_N r)
      else if (b0 <? 192)%N then None
      else if (b0 <? 224)%N then
        match r with
        | b1 :: r1 =>
            let cp := (N.shiftl (N.land b0 31) 6 + low6 b1)%N in
            if cont b1 && scalar 128 cp
            then option_map (cons cp) (decode_N r1) else None
        | _ => None
        end
      else if (b0 <? 240)%N then
        match r with
        | b1 :: b2 :: r2 =>
            let cp := (N.shiftl (N.land b0 15) 12
                       + N.shiftl (low6 b1) 6 + low6 b2)%N in
            if cont b1 && cont b2 && scalar 2048 cp
            then option_map (cons cp) (decode_N r2) else None
        | _ => None
        end
      else if (b0 <? 248)%N then
        match r with
        | b1 :: b2 :: b3 :: r3 =>
            let cp := (N.shiftl (N.land b0 7) 18 + N.shiftl (low6 b1) 12
                       + N.shiftl (low6 b2) 6 + low6 b3)%N in
            if cont b1 && cont b2 && cont b3 && scalar 65536 cp
            then option_map (cons cp) (decode_N r3) else None
        | _ => None
        end
      else None
  end.

Definition decode (data : bytes) : option str :=
  decode_N (List.map Byte.to_N data).

End Utf8.

(** ** The regular expression of line 46: the text [LOCATION: ], a greedy
       group of any characters but a line feed, a carriage return and a
       line feed *)

Module Re.

Definition LOCATION_colon : str := lit "LOCATION: ".

(** The group and the closing CR LF from the start of [r], as a
    backtracking matcher runs them:
    the dot takes any character but a line feed, the star is greedy (it
    first tries to take one more character) and gives characters back
    until a carriage return and a line feed follow.  The result is the
    text of group 1. *)
Fixpoint dot_star_crlf (r : str) : option str :=
  match r with
  | [] => None
  | c :: r' =>
      if N.eqb c LF then None
      else match dot_star_crlf r' with
           | Some g => Some (c :: g)
           | None => if startswith [CR; LF] r then Some [] else None
           end
  end.

(** The whole pattern anchored at the start of [s]. *)
Definition match_here (s : str) : option str :=
  if startswith LOCATION_colon s
  then dot_star_crlf (skipn (length LOCATION_colon) s)
  else None.

(** [re.search(pattern, s)]: the leftmost position where the pattern
    matches; [None] is Python's [None].  The value is [.group(1)] of the
    match object. *)
Fixpoint search (s : str) : option str :=
  match match_here s with
  | Some g => Some g
  | None =>
      match s with
      | [] => None
      | _ :: s' => search s'
      end
  end.

End Re.

(** ** [xml.etree.ElementTree] elements *)

Module ET.

(** An element as the code reads it: its tag (in the [{uri}local] form),
    its [.text] ([None] for an element with no character data before its
    first child) and its children in document order. *)
#[local] Unset Elimination Schemes.
Inductive element : Type :=
  Element (tag : str) (text : option str) (children : list element).
#[local] Set Elimination Schemes.

Definition tag (e : element) : str := let (t, _, _) := e in t.
Definition text (e : element) : option str := let (_, x, _) := e in x.
Definition children (e : element) : list element := let (_, _, c) := e in c.

(** [e.iter()]: the element, then its descendants, in document order. *)
Fixpoint iter (e : element) : list element :=
  match e with
  | Element _ _ cs => e :: flat_map iter cs
  end.

(** The prefix [ns] of the source's namespace map. *)
Definition ns : str := lit "urn:schemas-upnp-org:device-1-0".

(** [ns:name] resolved against the namespace map. *)
Definition qname (name : string) : str :=
  lit "{" ++ ns ++ lit "}" ++ lit name.

(** [root.findall(".//ns:name", ns)]: every descendant of [root] (not
    [root] itself) with that tag, in document order. *)
Definition findall (name : string) (root : element) : list element :=
  filter (fun e => Str.eqb (tag e) (qname name))
         (flat_map iter (children root)).

(** [e.find("ns:name", ns)]: the first child with that tag, or [None]. *)
Definition find (name : string) (e : element) : option element :=
  List.find (fun c => Str.eqb (tag c) (qname name)) (children e).

End ET.

Import ET.

(** ** Exceptions, log records, events *)

(** The exception classes the function can meet.  All of them derive from
    [Exception]; [socket_timeout] is the one the inner handler names. *)
Inductive exn : Type :=
| socket_timeout
| OSError
| UnicodeDecodeError
| AttributeError
| IndexError
| ParseError
| HTTPException
| ValueError.

Definition is_socket_timeout (e : exn) : bool :=
  match e with socket_timeout => true | _ => false end.

(** [except Exception]: every class above is caught. *)
Definition is_Exception (e : exn) : bool := true.

(** What a library call answers: a value, or an exception it raises. *)
Inductive result (A : Type) : Type :=
| Ok (a : A)
| Err (e : exn).
Arguments Ok {A} a.
Arguments Err {A} e.

(** One constructor per [logging] call of the function, with the values its
    message is formatted from. *)
Inductive log_record : Type :=
| Attempting (port_number : Z)                      (* line 22, info *)
| SentDiscovery                                     (* line 40, info *)
| FoundDevice (location : str)                      (* line 47, info *)
| DiscoveryTimedOut                                 (* line 50, error *)
| NoWANIPConnection                                 (* line 66, error *)
| FoundControlURL (control_url : option str)        (* line 69, info *)
| Opened (port_number : Z)                          (* line 99, info *)
| FailedToOpen (port_number : Z) (status : Z)       (* line 102, error *)
| ErrorInOpening (e : exn).                         (* line 108, error *)

(** The arguments of [conn.request(method, url, body, headers)] on a
    connection to [host].  [url] and [body] may be Python's [None]. *)
Record request : Type := {
  method : str;
  host : str;
  url : option str;
  body : option str;
  hdrs : list (str * str)
}.

(** The two attributes of an [HTTPResponse] the code touches. *)
Record response : Type := {
  status : Z;
  read : result Utf8.bytes
}.

Inductive event : Type :=
| Log (r : log_record)
| SendTo (data : Utf8.bytes) (address : str) (port : Z)
| Request (rq : request).

Definition trace := list event.

(** The HTTP requests of a trace, in order. *)
Fixpoint requests (t : trace) : list request :=
  match t with
  | [] => []
  | Request rq :: t' => rq :: requests t'
  | _ :: t' => requests t'
  end.

(** The log records of a trace, in order. *)
Fixpoint logs (t : trace) : list log_record :=
  match t with
  | [] => []
  | Log r :: t' => r :: logs t'
  | _ :: t' => logs t'
  end.

(** ** The environment: what each library call answers *)

Record Env : Type := {
  (** [socket.socket(AF_INET, SOCK_DGRAM)]; [None]: no exception. *)
  socket_socket : option exn;
  (** [sock.setsockopt(SOL_SOCKET, SO_BROADCAST, 1)] *)
  setsockopt : option exn;
  (** [sock.sendto(data, (address, port))] *)
  sendto : Utf8.bytes -> str -> Z -> option exn;
  (** the [k]-th call of [sock.recvfrom(8192)], counted from 0: the datagram,
      or the exception ([socket_timeout] after three silent seconds) *)
  recvfrom : nat -> result Utf8.bytes;
  (** [http.client.HTTPConnection(host)] *)
  HTTPConnection : str -> option exn;
  (** [conn.request(...)] *)
  conn_request : request -> option exn;
  (** [conn.getresponse()] after that request *)
  getresponse : request -> result response;
  (** [ET.fromstring(data)] *)
  fromstring : Utf8.bytes -> result element;
  (** [socket.gethostname()] *)
  gethostname : result str;
  (** [socket.gethostbyname(name)] *)
  gethostbyname : str -> result str
}.

(** ** Control flow of a Python function body *)

(** A statement or expression ends with a value, with a [return] of the
    enclosing function, or with an exception. *)
Inductive res (A : Type) : Type :=
| Val (a : A)
| Return (b : bool)
| Raise (e : exn).
Arguments Val {A} a.
Arguments Return {A} b.
Arguments Raise {A} e.

(** A computation: how it ended and the events it produced; [None] when the
    fuel given to the [while True] loop ran out first. *)
Definition M (A : Type) : Type := option (res A * trace).

Definition ret {A} (a : A) : M A := Some (Val a, []).
Definition return_ {A} (b : bool) : M A := Some (Return b, []).
Definition raise {A} (e : exn) : M A := Some (Raise e, []).
Definition out_of_fuel {A} : M A := None.
Definition emit (e : event) : M unit := Some (Val tt, [e]).
Definition logging (r : log_record) : M unit := emit (Log r).

(** Events of [t] first, then those of [m]. *)
Definition after {A} (t : trace) (m : M A) : M A :=
  match m with
  | Some (r, t') => Some (r, t ++ t')
  | None => None
  end.

Definition bind {A B} (m : M A) (k : A -> M B) : M B :=
  match m with
  | Some (Val a, t) => after t (k a)
  | Some (Return b, t) => Some (Return b, t)
  | Some (Raise e, t) => Some (Raise e, t)
  | None => None
  end.

(** [try: m  except <class> as e: handler e] *)
Definition try_except {A} (m : M A) (class : exn -> bool)
    (handler : exn -> M A) : M A :=
  match m with
  | Some (Raise e, t) => if class e then after t (handler e) else m
  | _ => m
  end.

Definition lib {A} (r : result A) : M A :=
  match r with Ok a => ret a | Err e => raise e end.

Definition lib_ (r : option exn) : M unit :=
  match r with None => ret tt | Some e => raise e end.

(** An attribute or method of a value that may be [None]. *)
Definition attr {A} (o : option A) : M A :=
  match o with Some a => ret a | None => raise AttributeError end.

Declare Scope py_scope.
Delimit Scope py_scope with py.
Notation "x <- m ;; k" := (bind m (fun x => k))
  (at level 61, m at next level, right associativity) : py_scope.
Notation "m ;; k" := (bind m (fun _ => k))
  (at level 61, right associativity) : py_scope.
Local Open Scope py_scope.


(** ** [open_upnp_port] *)

(** [msg] (lines 30-37); it is ASCII, so [msg.encode()] is one byte per
    character. *)
Definition msg : str :=
  lit "M-SEARCH * HTTP/1.1" ++ [CR; LF]
  ++ lit "HOST:239.255.255.250:1900" ++ [CR; LF]
  ++ lit "ST:upnp:rootdevice" ++ [CR; LF]
  ++ lit "MX:2" ++ [CR; LF]
  ++ lit "MAN:" ++ quote ++ lit "ssdp:discover" ++ quote ++ [CR; LF]
  ++ [CR; LF].

(** [s.encode()], for text within ASCII such as [msg]. *)
Definition encode (s : str) : Utf8.bytes :=
  List.map (fun c => match Byte.of_N c with Some b => b | None => x00 end) s.

(** [data.decode()] *)
Definition decode (data : Utf8.bytes) : M str :=
  match Utf8.decode data with
  | Some s => ret s
  | None => raise UnicodeDecodeError
  end.

(** Lines 43-51, one pass of the loop body.  [Some location] is the
    [break] of line 48; [None] falls through to the next pass. *)
Definition loop_body (env : Env) (k : nat) : M (option str) :=
  try_except
    (data <- lib (recvfrom env k) ;;
     text <- decode data ;;
     if contains (lit "LOCATION") text then
       text' <- decode data ;;
       location <- attr (Re.search text') ;;
       logging (FoundDevice location) ;;
       ret (Some location)
     else ret None)
    is_socket_timeout
    (fun _ => logging DiscoveryTimedOut ;; return_ false).

(** Line 42, [while True]; [k] counts the calls of [recvfrom] made so far. *)
Fixpoint while_True (fuel : nat) (env : Env) (k : nat) : M str :=
  match fuel with
  | O => out_of_fuel
  | S fuel' =>
      r <- loop_body env k ;;
      match r with
      | Some location => ret location
      | None => while_True fuel' env (S k)
      end
  end.

(** Lines 26-51: the discovery.  [sock.settimeout(3)] has no answer of its
    own here: it is why a receive can answer [socket_timeout]. *)
Definition discover (fuel : nat) (env : Env) : M str :=
  lib_ (socket_socket env) ;;
  lib_ (setsockopt env) ;;
  emit (SendTo (encode msg) (lit "239.255.255.250") 1900) ;;
  lib_ (sendto env (encode msg) (lit "239.255.255.250") 1900) ;;
  logging SentDiscovery ;;
  while_True fuel env 0.

(** [location.split("/")[2]]: [IndexError] when there are fewer than three
    pieces. *)
Definition netloc (location : str) : M str :=
  match nth_error (split slash location) 2 with
  | Some h => ret h
  | None => raise IndexError
  end.

(** The request of line 55. *)
Definition get_request (h location : str) : request :=
  {| method := lit "GET";
     host := h;
     url := Some ([slash] ++ join [slash] (skipn 3 (split slash location)));
     body := None;
     hdrs := [] |}.

(** Lines 54-59: fetch the description and parse it. *)
Definition fetch_description (env : Env) (location : str) : M element :=
  h <- netloc location ;;
  lib_ (HTTPConnection env h) ;;
  emit (Request (get_request h location)) ;;
  lib_ (conn_request env (get_request h location)) ;;
  response <- lib (getresponse env (get_request h location)) ;;
  data <- lib (read response) ;;
  lib (fromstring env data).

Definition WANIPConnection : str := lit "WANIPConnection".

(** Lines 61-67: the [for] loop over the service elements with its [else]
    clause.  The value is [control_url]. *)
Fixpoint for_service (services : list element) : M (option str) :=
  match services with
  | [] =>
      logging NoWANIPConnection ;;
      return_ false
  | service :: rest =>
      serviceType <- attr (find "serviceType" service) ;;
      t <- attr (text serviceType) ;;
      if endswith WANIPConnection t then
        controlURL <- attr (find "controlURL" service) ;;
        ret (text controlURL)
      else for_service rest
  end.

Definition indent (n : nat) : str := repeat 32%N n.

(** [<name>value</name>] *)
Definition elem (name : string) (value : str) : str :=
  lit "<" ++ lit name ++ lit ">" ++ value ++ lit "</" ++ lit name ++ lit ">".

Definition action_ns : str :=
  lit "urn:schemas-upnp-org:service:WANIPConnection:1".

(** The pieces of the f-string of lines 73-87, in order, with its two
    fields filled. *)
Definition soap_segments (port_number : Z) (ip : str) : list str :=
  [ lit "<?xml version=" ++ quote ++ lit "1.0" ++ quote ++ lit "?>"; [LF];
    indent 8;
    lit "<s:Envelope xmlns:s=" ++ quote
      ++ lit "http://schemas.xmlsoap.org/soap/envelope/" ++ quote
      ++ lit " s:encodingStyle=" ++ quote
      ++ lit "http://schemas.xmlsoap.org/soap/encoding/" ++ quote ++ lit ">";
    [LF];
    indent 12; lit "<s:Body>"; [LF];
    indent 16;
    lit "<u:AddPortMapping xmlns:u=" ++ quote ++ action_ns ++ quote ++ lit ">";
    [LF];
    indent 20; elem "NewRemoteHost" []; [LF];
    indent 20; elem "NewExternalPort" (of_int port_number); [LF];
    indent 20; elem "NewProtocol" (lit "TCP"); [LF];
    indent 20; elem "NewInternalPort" (of_int port_number); [LF];
    indent 20; elem "NewInternalClient" ip; [LF];
    indent 20; elem "NewEnabled" (lit "1"); [LF];
    indent 20; elem "NewPortMappingDescription" (lit "UPnP Port Mapping");
    [LF];
    indent 20; elem "NewLeaseDuration" (lit "0"); [LF];
    indent 16; lit "</u:AddPortMapping>"; [LF];
    indent 12; lit "</s:Body>"; [LF];
    indent 8; lit "</s:Envelope>" ].

(** [soap_body] *)
Definition soap_body (port_number : Z) (ip : str) : str :=
  concat (soap_segments port_number ip).

(** [headers] (lines 89-93), in insertion order. *)
Definition headers : list (str * str) :=
  [ (lit "SOAPAction",
     quote ++ action_ns ++ lit "#AddPortMapping" ++ quote);
    (lit "Content-Type",
     lit "text/xml; charset=" ++ quote ++ lit "utf-8" ++ quote);
    (lit "Connection", lit "close") ].

(** The request of line 95. *)
Definition post_request (h : str) (control_url : option str)
    (port_number : Z) (ip : str) : request :=
  {| method := lit "POST";
     host := h;
     url := control_url;
     body := Some (soap_body port_number ip);
     hdrs := headers |}.

(** Lines 72-105: the mapping request.  Every path ends in a [return]. *)
Definition add_port_mapping (env : Env) (port_number : Z)
    (location : str) (control_url : option str) : M Empty_set :=
  h <- netloc location ;;
  lib_ (HTTPConnection env h) ;;
  name <- lib (gethostname env) ;;
  ip <- lib (gethostbyname env name) ;;
  emit (Request (post_request h control_url port_number ip)) ;;
  lib_ (conn_request env (post_request h control_url port_number ip)) ;;
  response <- lib (getresponse env (post_request h control_url port_number ip)) ;;
  if (status response =? 200)%Z then
    logging (Opened port_number) ;;
    return_ true
  else
    logging (FailedToOpen port_number (status response)) ;;
    return_ false.

(** Lines 25-105: the body of the outer [try]. *)
Definition try_body (fuel : nat) (env : Env) (port_number : Z) : M Empty_set :=
  location <- discover fuel env ;;
  root <- fetch_description env location ;;
  control_url <- for_service (findall "service" root) ;;
  logging (FoundControlURL control_url) ;;
  add_port_mapping env port_number location control_url.

(** How a call of the function ends for its caller. *)
Inductive outcome : Type :=
| Returns (b : bool)
| Propagates (e : exn).

(** CPython's default limit on the decimal digits of an [int] that is
    turned into text ([sys.int_info.default_max_str_digits]). *)
Definition int_max_str_digits : Z := 4300.

(** [str(n)] and the f-string field [{n}] as CPython evaluates them: an
    [int] of more than [int_max_str_digits] digits, sign apart, has no text
    and the conversion raises [ValueError]. *)
Definition str_int (n : Z) : result str :=
  if (Z.abs n <? 10 ^ int_max_str_digits)%Z then Ok (of_int n)
  else Err ValueError.

(** Lines 22-109, from the [logging.info] call of line 22 on, for a
    [port_number] that has a text ([str_int] answers [Ok]): every field
    [{port_number}] of lines 22, 73-87, 99 and 102 is then [of_int].
    [None]: the loop was still running when the fuel ran out. *)
Definition open_upnp_port (fuel : nat) (env : Env) (port_number : Z)
  : option (outcome * trace) :=
  match
    logging (Attempting port_number) ;;
    try_except (try_body fuel env port_number) is_Exception
      (fun e => logging (ErrorInOpening e) ;; return_ false)
  with
  | Some (Return b, t) => Some (Returns b, t)
  | Some (Raise e, t) => Some (Propagates e, t)
  | Some (Val v, _) => match v with end
  | None => None
  end.

(** Lines 12-109, the call [open_upnp_port(port_number)] for every [int].
    The f-string of line 22 is evaluated before the [try] of line 24 is
    entered: for a [port_number] without a text its [ValueError] reaches the
    caller, and nothing has been logged or sent. *)
Definition open_upnp_port_call (fuel : nat) (env : Env) (port_number : Z)
  : option (outcome * trace) :=
  match str_int port_number with
  | Ok _ => open_upnp_port fuel env port_number
  | Err e => Some (Propagates e, [])
  end.

(** ** [open_nat_port] and the script *)

(** A loop-free body: how it ended and the events it produced, for any type
    of events. *)
Definition W (E A : Type) : Type := (res A * list E)%type.

Definition wret {E A} (a : A) : W E A := (Val a, []).
Definition wreturn {E A} (b : bool) : W E A := (Return b, []).
Definition wraise {E A} (e : exn) : W E A := (Raise e, []).
Definition wemit {E} (e : E) : W E unit := (Val tt, [e]).

Definition wbind {E A B} (m : W E A) (k : A -> W E B) : W E B :=
  match m with
  | (Val a, t) => let (r, t') := k a in (r, t ++ t')
  | (Return b, t) => (Return b, t)
  | (Raise e, t) => (Raise e, t)
  end.

(** [try: m  except <class> as e: handler e] *)
Definition wtry {E A} (m : W E A) (class : exn -> bool)
    (handler : exn -> W E A) : W E A :=
  match m with
  | (Raise e, t) =>
      if class e then let (r, t') := handler e in (r, t ++ t') else m
  | _ => m
  end.

Definition wlib {E A} (r : result A) : W E A :=
  match r with Ok a => wret a | Err e => wraise e end.

Definition wlib_ {E} (r : option exn) : W E unit :=
  match r with None => wret tt | Some e => wraise e end.

Declare Scope w_scope.
Delimit Scope w_scope with w.
Notation "x <- m ;; k" := (wbind m (fun x => k))
  (at level 61, m at next level, right associativity) : w_scope.
Notation "m ;; k" := (wbind m (fun _ => k))
  (at level 61, right associativity) : w_scope.

(** What [open_nat_port] asks beyond [Env]: the answer of [sock.bind] and
    the address that comes with the [k]-th datagram. *)
Record LocalEnv : Type := {
  net : Env;
  sock_bind : str -> Z -> option exn;
  peer : nat -> str * Z
}.

(** One constructor per [logging] call of [open_nat_port]. *)
Inductive local_log : Type :=
| AttemptingLocal (port_number : Z)                       (* line 122, info *)
| BoundTo (local_ip : str) (port_number : Z)              (* line 132, info *)
| SentBroadcast (local_ip : str) (port_number : Z)        (* line 142, info *)
| ReceivedFrom (addr : str * Z) (data : Utf8.bytes)       (* line 148, info *)
| NoResponse                                              (* line 150, info *)
| OpenedLocal (port_number : Z)                           (* line 152, info *)
| ErrorInLocal (e : exn).                                 (* line 156, error *)

Inductive local_event : Type :=
| LocalLog (r : local_log)
| Bind (address : str) (port : Z)
| Broadcast (data : Utf8.bytes) (address : str) (port : Z).

Definition wlog (r : local_log) : W local_event unit := wemit (LocalLog r).

(** [broadcast_addr] and [message] (lines 138-139). *)
Definition broadcast_addr : str := lit "<broadcast>".
Definition message : Utf8.bytes := encode (lit "Port opening test").

(** Lines 125-153: the body of the [try] of [open_nat_port].
    [sock.settimeout(5)] is why the receive can answer [socket_timeout]. *)
Definition nat_try_body (env : LocalEnv) (port_number : Z)
  : W local_event Empty_set :=
  (wlib_ (socket_socket (net env)) ;;
   wemit (Bind [] port_number) ;;
   wlib_ (sock_bind env [] port_number) ;;
   name <- wlib (gethostname (net env)) ;;
   local_ip <- wlib (gethostbyname (net env) name) ;;
   wlog (BoundTo local_ip port_number) ;;
   wlib_ (setsockopt (net env)) ;;
   wemit (Broadcast message broadcast_addr port_number) ;;
   wlib_ (sendto (net env) message broadcast_addr port_number) ;;
   wlog (SentBroadcast local_ip port_number) ;;
   wtry (data <- wlib (recvfrom (net env) 0) ;;
         wlog (ReceivedFrom (peer env 0) data))
     is_socket_timeout
     (fun _ => wlog NoResponse) ;;
   wlog (OpenedLocal port_number) ;;
   wreturn true)%w.

(** Lines 122-157, from the [logging.info] call of line 122 on, for a
    [port_number] that has a text ([str_int] answers [Ok]). *)
Definition open_nat_port (env : LocalEnv) (port_number : Z)
  : outcome * list local_event :=
  match
    (wlog (AttemptingLocal port_number) ;;
     wtry (nat_try_body env port_number) is_Exception
       (fun e => wlog (ErrorInLocal e) ;; wreturn false))%w
  with
  | (Return b, t) => (Returns b, t)
  | (Raise e, t) => (Propagates e, t)
  | (Val v, _) => match v with end
  end.

(** Lines 112-157, the call [open_nat_port(port_number)] for every [int]:
    the f-string of line 122 stands before the [try] of line 124, as in
    [open_upnp_port_call]. *)
Definition open_nat_port_call (env : LocalEnv) (port_number : Z)
  : outcome * list local_event :=
  match str_int port_number with
  | Ok _ => open_nat_port env port_number
  | Err e => (Propagates e, [])
  end.

(** Lines 160-165, the script: the events of the one call it makes and the
    line it prints ([None] if the call let an exception through).  The port
    of line 164 is 1235, which has a text. *)
Definition main (env : LocalEnv) : list local_event * option str :=
  match open_nat_port env 1235 with
  | (Returns nat_result, t) =>
      (t, Some (lit "NAT port opening result: "
                ++ if nat_result then lit "Success" else lit "Failure"))
  | (Propagates _, t) => (t, None)
  end.

(** ** Concrete environments *)

Module Demo.

(** An environment from a script: the datagrams in order (then
    [after_datagrams] for ever), one answer for the GET, one parse result,
    one answer for the POST; every other call succeeds. *)
Definition scripted (datagrams : list (result Utf8.bytes))
    (after_datagrams : result Utf8.bytes)
    (description : result response) (tree : result element)
    (mapping : result response) : Env :=
  {| socket_socket := None;
     setsockopt := None;
     sendto := fun _ _ _ => None;
     recvfrom := fun k => nth k datagrams after_datagrams;
     HTTPConnection := fun _ => None;
     conn_request := fun _ => None;
     getresponse := fun rq =>
       if Str.eqb (method rq) (lit "GET") then description else mapping;
     fromstring := fun _ => tree;
     gethostname := Ok (lit "host");
     gethostbyname := fun _ => Ok (lit "192.168.1.50") |}.

Definition node (name : string) (children : list element) : element :=
  Element (qname name) None children.

Definition leaf (name value : string) : element :=
  Element (qname name) (Some (lit value)) [].

Definition service (serviceType controlURL : string) : element :=
  node "service" [leaf "serviceType" serviceType;
                  leaf "controlURL" controlURL].

Definition device (services : list element) : element :=
  node "root" [node "device" [node "serviceList" services]].

Definition layer3 : element :=
  service "urn:schemas-upnp-org:service:Layer3Forwarding" "/ctl/L3F".

Definition ipconn : element :=
  service "urn:schemas-upnp-org:service:WANIPConnection" "/ctl/IPConn".

(** A service element with no [serviceType] child. *)
Definition broken : element :=
  node "service" [leaf "controlURL" "/ctl/broken"].

(** A matching service element with no [controlURL] child. *)
Definition no_url : element :=
  node "service"
    [leaf "serviceType" "urn:schemas-upnp-org:service:WANIPConnection"].

Definition reply : Utf8.bytes :=
  encode (lit "HTTP/1.1 200 OK" ++ [CR; LF]
          ++ lit "LOCATION: http://192.168.1.1:5000/desc.xml" ++ [CR; LF]
          ++ [CR; LF]).

(** A datagram that is not an SSDP reply. *)
Definition noise : Utf8.bytes := encode (lit "hello").

(** The word LOCATION without the header. *)
Definition teaser : Utf8.bytes :=
  encode (lit "NOTIFY * HTTP/1.1" ++ [CR; LF]
          ++ lit "X-RELOCATION-ID: 7" ++ [CR; LF] ++ [CR; LF]).

Definition page : Utf8.bytes := encode (lit "<root/>").

Definition location : str := lit "http://192.168.1.1:5000/desc.xml".
Definition netloc : str := lit "192.168.1.1:5000".
Definition local_ip : str := lit "192.168.1.50".

Definition http (code : Z) : result response :=
  Ok {| status := code; read := Ok page |}.

(** The end-to-end scenario: one reply, one matching service, 200. *)
Definition gateway (code : Z) : Env :=
  scripted [Ok noise; Ok reply] (Err socket_timeout)
    (http 200) (Ok (device [layer3; ipconn])) (http code).

(** Nobody answers. *)
Definition silent : Env :=
  scripted [Ok noise] (Err socket_timeout)
    (http 200) (Ok (device [ipconn])) (http 200).


(** Noise, then a datagram with the word but not the header, then a good
    reply. *)
Definition teasing : Env :=
  scripted [Ok noise; Ok teaser; Ok reply] (Err socket_timeout)
    (http 200) (Ok (device [ipconn])) (http 200).


(** As [gateway 200] for the first two receives, noisy ever after. *)
Definition busy_gateway : Env :=
  scripted [Ok noise; Ok reply] (Ok noise)
    (http 200) (Ok (device [layer3; ipconn])) (http 200).

(** A description whose services are the given ones. *)
Definition described (services : list element) : Env :=
  scripted [Ok reply] (Err socket_timeout)
    (http 200) (Ok (device services)) (http 200).

End Demo.

Module DemoLocal.

(** Every call succeeds; the receive answers [reply]. *)
Definition host (reply : result Utf8.bytes) : LocalEnv :=
  {| net := Demo.scripted [reply] (Err socket_timeout)
              (Demo.http 200) (Ok (Demo.device [])) (Demo.http 200);
     sock_bind := fun _ _ => None;
     peer := fun _ => (lit "192.168.1.7", 40000%Z) |}.

(** The port is taken. *)
Definition taken : LocalEnv :=
  {| net := net (host (Err socket_timeout));
     sock_bind := fun _ _ => Some OSError;
     peer := fun _ => (lit "192.168.1.7", 40000%Z) |}.

End DemoLocal.

Module DemoMore.

(** A reply whose location is a bare file name. *)
Definition relative_reply : Utf8.bytes :=
  encode (lit "HTTP/1.1 200 OK" ++ [CR; LF]
          ++ lit "LOCATION: desc.xml" ++ [CR; LF] ++ [CR; LF]).

Definition relative : Env :=
  Demo.scripted [Ok relative_reply] (Err socket_timeout)
    (Demo.http 200) (Ok (Demo.device [Demo.ipconn])) (Demo.http 200).

(** The description comes with status 404, and parses all the same. *)
Definition not_found : Env :=
  Demo.scripted [Ok Demo.reply] (Err socket_timeout)
    (Ok {| status := 404; read := Ok Demo.page |})
    (Ok (Demo.device [Demo.ipconn])) (Demo.http 200).

(** A datagram that is not UTF-8, then a good reply. *)
Definition garbled : Env :=
  Demo.scripted [Ok Demo.noise; Ok [xff]; Ok Demo.reply] (Err socket_timeout)
    (Demo.http 200) (Ok (Demo.device [Demo.ipconn])) (Demo.http 200).

(** A reply with a header whose name ends in LOCATION on the line before
    its [LOCATION] header. *)
Definition mirrored_reply : Utf8.bytes :=
  encode (lit "HTTP/1.1 200 OK" ++ [CR; LF]
          ++ lit "CONTENT-LOCATION: /index.html" ++ [CR; LF]
          ++ lit "LOCATION: http://192.168.1.1:5000/desc.xml" ++ [CR; LF]
          ++ [CR; LF]).

Definition mirrored : Env :=
  Demo.scripted [Ok mirrored_reply] (Err socket_timeout)
    (Demo.http 200) (Ok (Demo.device [Demo.ipconn])) (Demo.http 200).

End DemoMore.

(** ** Vocabulary of the statements *)

(** The [k]-th receive gives a datagram that decodes and has no LOCATION in
    it: the loop goes on to the next receive. *)
Definition skips (env : Env) (k : nat) : bool :=
  match recvfrom env k with
  | Ok data =>
      match Utf8.decode data with
      | Some text => negb (contains (lit "LOCATION") text)
      | None => false
      end
  | Err _ => false
  end.

(** The location the [k]-th receive gives, when it gives one. *)
Definition reply_location (env : Env) (k : nat) : option str :=
  match recvfrom env k with
  | Ok data =>
      match Utf8.decode data with
      | Some text =>
          if contains (lit "LOCATION") text then Re.search text else None
      | None => None
      end
  | Err _ => None
  end.

(** The text of the [serviceType] child of a service element. *)
Definition service_type (service : element) : option str :=
  match find "serviceType" service with
  | Some c => text c
  | None => None
  end.

(** A service whose [serviceType] text ends with [WANIPConnection]. *)
Definition is_wanip (service : element) : bool :=
  match service_type service with
  | Some t => endswith WANIPConnection t
  | None => false
  end.

(** A service with a [serviceType] text that does not end so. *)
Definition is_other (service : element) : bool :=
  match service_type service with
  | Some t => negb (endswith WANIPConnection t)
  | None => false
  end.

(** The number a decimal digit stands for. *)
Definition digit (c : char) : option Z :=
  if (48 <=? c)%N && (c <=? 57)%N then Some (Z.of_N c - 48)%Z else None.

(** The number a run of decimal digits stands for, read from the left
    after the digits that gave [acc]. *)
Fixpoint digits_value (acc : Z) (s : str) : option Z :=
  match s with
  | [] => Some acc
  | c :: s' =>
      match digit c with
      | Some d => digits_value (10 * acc + d) s'
      | None => None
      end
  end.

(** The integer a decimal numeral stands for: one digit or more, after a
    minus sign (character 45) for a negative one. *)
Definition to_int (s : str) : option Z :=
  match s with
  | [] => None
  | c :: s' =>
      if N.eqb c 45 then
        match s' with
        | [] => None
        | _ :: _ => option_map Z.opp (digits_value 0 s')
        end
      else digits_value 0 s
  end.

(** The text [x] stands somewhere in [b]. *)
Definition occurs (x b : str) : Prop :=
  exists pre post, b = pre ++ x ++ post.

(** Two environments that answer alike every call a run with [fuel] passes
    of the loop can make. *)
Record same_replies (fuel : nat) (e1 e2 : Env) : Prop := {
  same_socket : socket_socket e1 = socket_socket e2;
  same_setsockopt : setsockopt e1 = setsockopt e2;
  same_sendto : forall d a p, sendto e1 d a p = sendto e2 d a p;
  same_recvfrom : forall k, k < fuel -> recvfrom e1 k = recvfrom e2 k;
  same_HTTPConnection : forall h, HTTPConnection e1 h = HTTPConnection e2 h;
  same_conn_request : forall rq, conn_request e1 rq = conn_request e2 rq;
  same_getresponse : forall rq, getresponse e1 rq = getresponse e2 rq;
  same_fromstring : forall d, fromstring e1 d = fromstring e2 d;
  same_gethostname : gethostname e1 = gethostname e2;
  same_gethostbyname : forall n, gethostbyname e1 n = gethostbyname e2 n
}.

(** The datagrams [open_upnp_port] sent, in order. *)
Fixpoint datagrams (t : trace) : list (Utf8.bytes * str * Z) :=
  match t with
  | [] => []
  | SendTo d a p :: t' => (d, a, p) :: datagrams t'
  | _ :: t' => datagrams t'
  end.

(** The log records of [open_nat_port], in order. *)
Fixpoint local_logs (t : list local_event) : list local_log :=
  match t with
  | [] => []
  | LocalLog r :: t' => r :: local_logs t'
  | _ :: t' => local_logs t'
  end.

(** The calls of [bind] and [sendto] of [open_nat_port], in order. *)
Fixpoint socket_calls (t : list local_event) : list local_event :=
  match t with
  | [] => []
  | LocalLog _ :: t' => socket_calls t'
  | e :: t' => e :: socket_calls t'
  end.

(** Every call before the receive of [open_nat_port] succeeds, with
    [local_ip] the address found for the host's own name. *)
Definition local_setup (env : LocalEnv) (port_number : Z) (local_ip : str)
  : Prop :=
  socket_socket (net env) = None /\
  sock_bind env [] port_number = None /\
  (exists name,
      gethostname (net env) = Ok name /\
      gethostbyname (net env) name = Ok local_ip) /\
  setsockopt (net env) = None /\
  sendto (net env) message broadcast_addr port_number = None.

(** ** Facts about the string operations *)

Section StringFacts.

Lemma startswith_app (p s : str) : startswith p (p ++ s) = true.
Proof.
  induction p as [|c p IH]; simpl; [reflexivity|].
  now rewrite N.eqb_refl, IH.
Qed.

Lemma contains_unfold (p s : str) :
  contains p s =
  startswith p s || match s with [] => false | _ :: s' => contains p s' end.
Proof. destruct s; reflexivity. Qed.

Lemma contains_app (p a b : str) : contains p (a ++ p ++ b) = true.
Proof.
  induction a as [|c a IH]; simpl app.
  - now rewrite contains_unfold, startswith_app.
  - rewrite contains_unfold, IH. apply orb_true_r.
Qed.

Lemma contains_cons_false (p : str) (c : char) (s : str) :
  contains p (c :: s) = false ->
  startswith p (c :: s) = false /\ contains p s = false.
Proof.
  rewrite contains_unfold. intros H. now apply orb_false_elim in H.
Qed.

Lemma LOCATION_colon_chars :
  Re.LOCATION_colon = [76; 79; 67; 65; 84; 73; 79; 78; 58; 32]%N.
Proof. reflexivity. Qed.

(** The header name has no border: an occurrence of it cannot begin
    inside [pre] and run into a second occurrence that follows [pre]. *)
Lemma LOCATION_colon_no_straddle (pre rest : str) :
  contains Re.LOCATION_colon pre = false ->
  startswith Re.LOCATION_colon (pre ++ Re.LOCATION_colon ++ rest) = true ->
  pre = [].
Proof.
  rewrite LOCATION_colon_chars. intros Hc Hs.
  destruct pre as [|c0 pre]; [reflexivity|exfalso].
  apply contains_cons_false in Hc as [Hc _].
  do 9 (destruct pre as [|? pre];
        [ cbn [startswith app] in Hs;
          repeat match type of Hs with
                 | (_ && _) = true =>
                     let E := fresh "E" in
                     apply andb_prop in Hs; destruct Hs as [E Hs];
                     apply N.eqb_eq in E
                 end; congruence | ]).
  cbn [startswith app] in Hc, Hs. rewrite Hs in Hc. discriminate.
Qed.

Lemma dot_star_crlf_line (v post : str) :
  ~ In LF v ->
  Re.dot_star_crlf (v ++ CR :: LF :: post) = Some v.
Proof.
  induction v as [|c v IH]; intros Hv.
  - reflexivity.
  - simpl. destruct (N.eqb_spec c LF) as [->|_].
    + exfalso. apply Hv. now left.
    + rewrite IH; [reflexivity|]. intros Hin. apply Hv. now right.
Qed.

Lemma search_unfold (s : str) :
  Re.search s =
  match Re.match_here s with
  | Some g => Some g
  | None => match s with [] => None | _ :: s' => Re.search s' end
  end.
Proof. destruct s; reflexivity. Qed.

Lemma match_here_header (r : str) :
  Re.match_here (Re.LOCATION_colon ++ r) = Re.dot_star_crlf r.
Proof.
  unfold Re.match_here. rewrite startswith_app.
  now rewrite skipn_app, skipn_all, Nat.sub_diag.
Qed.

(** The value of the first [LOCATION: ] header line. *)
Lemma search_first_header (pre v post : str) :
  contains Re.LOCATION_colon pre = false ->
  ~ In LF v ->
  Re.search (pre ++ Re.LOCATION_colon ++ v ++ CR :: LF :: post) = Some v.
Proof.
  intros Hpre Hv. induction pre as [|c pre IH].
  - rewrite app_nil_l, search_unfold, match_here_header.
    now rewrite dot_star_crlf_line.
  - rewrite search_unfold. unfold Re.match_here.
    destruct (startswith Re.LOCATION_colon
                ((c :: pre) ++ Re.LOCATION_colon ++ v ++ CR :: LF :: post))
      eqn:E.
    + apply LOCATION_colon_no_straddle in E; [discriminate|assumption].
    + rewrite <- app_comm_cons. apply IH.
      now apply contains_cons_false in Hpre.
Qed.

Lemma LOCATION_in_header (pre rest : str) :
  contains (lit "LOCATION") (pre ++ Re.LOCATION_colon ++ rest) = true.
Proof.
  change Re.LOCATION_colon with (lit "LOCATION" ++ lit ": ").
  rewrite <- (app_assoc (lit "LOCATION")). apply contains_app.
Qed.

End StringFacts.

(** ** Facts about the control flow *)

Section ControlFlow.

Variable env : Env.

Lemma after_nil {A} (m : M A) : after [] m = m.
Proof. now destruct m as [[r t]|]. Qed.

Lemma requests_app (t1 t2 : trace) :
  requests (t1 ++ t2) = requests t1 ++ requests t2.
Proof.
  induction t1 as [|[r|d a p|rq] t1 IH]; simpl; now rewrite ?IH.
Qed.

Lemma logs_app (t1 t2 : trace) : logs (t1 ++ t2) = logs t1 ++ logs t2.
Proof.
  induction t1 as [|[r|d a p|rq] t1 IH]; simpl; now rewrite ?IH.
Qed.

(** One pass of the loop, case by case. *)
Lemma loop_body_cases (k : nat) :
  loop_body env k =
  match recvfrom env k with
  | Err e =>
      if is_socket_timeout e
      then Some (Return false, [Log DiscoveryTimedOut])
      else Some (Raise e, [])
  | Ok data =>
      match Utf8.decode data with
      | None => Some (Raise UnicodeDecodeError, [])
      | Some text =>
          if contains (lit "LOCATION") text then
            match Re.search text with
            | Some location =>
                Some (Val (Some location), [Log (FoundDevice location)])
            | None => Some (Raise AttributeError, [])
            end
          else Some (Val None, [])
      end
  end.
Proof.
  unfold loop_body, decode.
  destruct (recvfrom env k) as [data|e]; simpl.
  - destruct (Utf8.decode data) as [text|]; simpl; [|reflexivity].
    destruct (contains (lit "LOCATION") text); simpl; [|reflexivity].
    destruct (Re.search text); reflexivity.
  - destruct e; reflexivity.
Qed.

Lemma loop_body_skips (k : nat) :
  skips env k = true -> loop_body env k = Some (Val None, []).
Proof.
  unfold skips. rewrite loop_body_cases.
  destruct (recvfrom env k) as [data|e]; [|discriminate].
  destruct (Utf8.decode data) as [text|]; [|discriminate].
  destruct (contains (lit "LOCATION") text); [discriminate|reflexivity].
Qed.


Lemma while_True_skip (fuel k : nat) :
  skips env k = true ->
  while_True (S fuel) env k = while_True fuel env (S k).
Proof.
  intros H. simpl. rewrite (loop_body_skips _ H). simpl. apply after_nil.
Qed.

Lemma while_True_skips (n : nat) :
  forall fuel k,
    (forall i, i < n -> skips env (k + i) = true) ->
    while_True (n + fuel) env k = while_True fuel env (k + n).
Proof.
  induction n as [|n IH]; intros fuel k H.
  - now rewrite Nat.add_0_r.
  - cbn [Nat.add]. rewrite while_True_skip.
    + rewrite IH; [f_equal; lia|].
      intros i Hi. replace (S k + i) with (k + S i) by lia. apply H. lia.
    + rewrite <- (Nat.add_0_r k). apply H. lia.
Qed.

Lemma while_True_timeout (fuel k : nat) :
  recvfrom env k = Err socket_timeout ->
  while_True (S fuel) env k = Some (Return false, [Log DiscoveryTimedOut]).
Proof. intros H. simpl. rewrite loop_body_cases, H. reflexivity. Qed.

Lemma while_True_found (fuel k : nat) (location : str) :
  reply_location env k = Some location ->
  while_True (S fuel) env k
  = Some (Val location, [Log (FoundDevice location)]).
Proof.
  unfold reply_location. intros H. simpl. rewrite loop_body_cases.
  destruct (recvfrom env k) as [data|e]; [|discriminate].
  destruct (Utf8.decode data) as [text|]; [|discriminate].
  destruct (contains (lit "LOCATION") text); [|discriminate].
  rewrite H. reflexivity.
Qed.

(** The loop sends no HTTP request, and when it leaves the function it
    does so with [False]. *)
Lemma while_True_quiet (fuel : nat) :
  forall k r t,
    while_True fuel env k = Some (r, t) ->
    requests t = [] /\ (forall b, r = Return b -> b = false).
Proof.
  induction fuel as [|fuel IH]; intros k r t; [discriminate|].
  simpl. rewrite loop_body_cases.
  destruct (recvfrom env k) as [data|e].
  - destruct (Utf8.decode data) as [text|].
    + destruct (contains (lit "LOCATION") text).
      * destruct (Re.search text); simpl; intros [= <- <-];
          (split; [reflexivity|discriminate]).
      * simpl. rewrite after_nil. apply IH.
    + simpl; intros [= <- <-]; (split; [reflexivity|discriminate]).
  - destruct (is_socket_timeout e); simpl; intros [= <- <-];
      (split; [reflexivity|]); [now intros b [= <-]|discriminate].
Qed.


(** With no location before the [n]-th receive and a timeout there, the
    loop ends the call. *)
Lemma while_True_no_reply (n : nat) :
  forall fuel k,
    n < fuel ->
    (forall i, i < n -> reply_location env (k + i) = None) ->
    recvfrom env (k + n) = Err socket_timeout ->
    exists r t,
      while_True fuel env k = Some (r, t) /\
      forall location, r <> Val location.
Proof.
  induction n as [|n IH]; intros fuel k Hf Hno Hto.
  - destruct fuel as [|fuel]; [lia|].
    rewrite Nat.add_0_r in Hto. rewrite (while_True_timeout _ _ Hto).
    eexists; eexists; split; [reflexivity|discriminate].
  - destruct fuel as [|fuel]; [lia|].
    pose proof (Hno 0 ltac:(lia)) as H0. rewrite Nat.add_0_r in H0.
    unfold reply_location in H0. simpl. rewrite loop_body_cases.
    destruct (recvfrom env k) as [data|e].
    + destruct (Utf8.decode data) as [text|].
      * destruct (contains (lit "LOCATION") text).
        -- rewrite H0. eexists; eexists; split; [reflexivity|discriminate].
        -- simpl. rewrite after_nil. apply IH; [lia| |].
           ++ intros i Hi. replace (S k + i) with (k + S i) by lia.
              apply Hno. lia.
           ++ now replace (S k + n) with (k + S n) by lia.
      * eexists; eexists; split; [reflexivity|discriminate].
    + destruct (is_socket_timeout e);
        eexists; eexists; (split; [reflexivity|discriminate]).
Qed.

End ControlFlow.

(** ** Facts about the stages *)

Ltac unfold_py :=
  cbn [bind after try_except lib lib_ attr ret return_ raise emit logging
       app].



Section Stages.

Variable env : Env.

Lemma bind_ext {A B} (m : M A) (k1 k2 : A -> M B) :
  (forall a, k1 a = k2 a) -> bind m k1 = bind m k2.
Proof.
  intros H. destruct m as [[[a|b|e] t]|]; simpl; try reflexivity.
  now rewrite H.
Qed.

(** Discovery, call by call. *)
Lemma discover_cases (fuel : nat) :
  discover fuel env =
  match socket_socket env with
  | Some e => Some (Raise e, [])
  | None =>
      match setsockopt env with
      | Some e => Some (Raise e, [])
      | None =>
          match sendto env (encode msg) (lit "239.255.255.250") 1900 with
          | Some e =>
              Some (Raise e,
                    [SendTo (encode msg) (lit "239.255.255.250") 1900])
          | None =>
              after [SendTo (encode msg) (lit "239.255.255.250") 1900;
                     Log SentDiscovery]
                (while_True fuel env 0)
          end
      end
  end.
Proof.
  unfold discover.
  destruct (socket_socket env); [reflexivity|].
  destruct (setsockopt env); [reflexivity|].
  generalize (encode msg) (lit "239.255.255.250"). intros d a.
  destruct (sendto env d a 1900); [reflexivity|].
  destruct (while_True fuel env 0) as [[[location|b|e] t]|]; reflexivity.
Qed.

Lemma discover_quiet (fuel : nat) r t :
  discover fuel env = Some (r, t) ->
  requests t = [] /\ (forall b, r = Return b -> b = false).
Proof.
  rewrite discover_cases.
  destruct (socket_socket env);
    [intros [= <- <-]; split; [reflexivity|discriminate]|].
  destruct (setsockopt env);
    [intros [= <- <-]; split; [reflexivity|discriminate]|].
  destruct (sendto env _ _ _);
    [intros [= <- <-]; split; [reflexivity|discriminate]|].
  destruct (while_True fuel env 0) as [[r' t']|] eqn:E; [|discriminate].
  simpl. intros [= <- <-]. apply while_True_quiet in E as [E1 E2].
  split; [exact E1|exact E2].
Qed.


Lemma discover_no_reply (fuel n : nat) :
  n < fuel ->
  (forall i, i < n -> reply_location env i = None) ->
  recvfrom env n = Err socket_timeout ->
  exists r t,
    discover fuel env = Some (r, t) /\ forall location, r <> Val location.
Proof.
  intros Hn Hno Hto. rewrite discover_cases.
  destruct (socket_socket env);
    [eexists; eexists; split; [reflexivity|discriminate]|].
  destruct (setsockopt env);
    [eexists; eexists; split; [reflexivity|discriminate]|].
  destruct (sendto env _ _ _);
    [eexists; eexists; split; [reflexivity|discriminate]|].
  destruct (@while_True_no_reply env n fuel 0 Hn Hno Hto)
    as (r & t & -> & Hr).
  simpl. eexists; eexists; split; [reflexivity|exact Hr].
Qed.

(** The fetch either raises before any request, or sends exactly the GET;
    it never leaves the function by itself. *)
Lemma fetch_description_shape (location : str) r t :
  fetch_description env location = Some (r, t) ->
  (t = [] /\ exists e, r = Raise e) \/
  (exists h,
      nth_error (split slash location) 2 = Some h /\
      HTTPConnection env h = None /\
      t = [Request (get_request h location)] /\
      forall b, r <> Return b).
Proof.
  unfold fetch_description, netloc.
  destruct (nth_error (split slash location) 2) as [h|] eqn:Eh; unfold_py;
    [|intros [= <- <-]; left; eauto].
  destruct (HTTPConnection env h) eqn:Ec; unfold_py;
    [intros [= <- <-]; left; eauto|].
  intros H. right. exists h. split; [reflexivity|]. split; [exact Ec|].
  revert H.
  destruct (conn_request env _); unfold_py;
    [intros [= <- <-]; split; [reflexivity|discriminate]|].
  destruct (getresponse env _) as [resp|]; unfold_py;
    [|intros [= <- <-]; split; [reflexivity|discriminate]].
  destruct (read resp) as [data|]; unfold_py;
    [|intros [= <- <-]; split; [reflexivity|discriminate]].
  destruct (fromstring env data); unfold_py;
    intros [= <- <-]; split; (reflexivity || discriminate).
Qed.


(** The walk, case by case. *)
Lemma for_service_cons (service : element) (rest : list element) :
  for_service (service :: rest) =
  match service_type service with
  | None => Some (Raise AttributeError, [])
  | Some t =>
      if endswith WANIPConnection t then
        match find "controlURL" service with
        | Some c => Some (Val (text c), [])
        | None => Some (Raise AttributeError, [])
        end
      else for_service rest
  end.
Proof.
  unfold service_type. simpl.
  destruct (find "serviceType" service) as [c|]; simpl; [|reflexivity].
  destruct (text c) as [t|]; simpl; [|reflexivity].
  destruct (endswith WANIPConnection t); simpl.
  - destruct (find "controlURL" service); reflexivity.
  - now rewrite !after_nil.
Qed.

Lemma for_service_shape (services : list element) :
  (exists control_url, for_service services = Some (Val control_url, [])) \/
  for_service services = Some (Return false, [Log NoWANIPConnection]) \/
  for_service services = Some (Raise AttributeError, []).
Proof.
  induction services as [|service rest IH].
  - right; left; reflexivity.
  - rewrite for_service_cons.
    destruct (service_type service) as [t|]; [|right; right; reflexivity].
    destruct (endswith WANIPConnection t); [|exact IH].
    destruct (find "controlURL" service) as [c|];
      [left; eexists; reflexivity|right; right; reflexivity].
Qed.

(** The mapping stage either raises before any request, or sends exactly
    the POST of line 95, and then returns [True] only on a 200. *)
Lemma add_port_mapping_shape (port_number : Z) (location : str)
    (control_url : option str) :
  exists r t,
    add_port_mapping env port_number location control_url = Some (r, t) /\
    ((t = [] /\ exists e, r = Raise e) \/
     (exists h ip,
         requests t = [post_request h control_url port_number ip] /\
         nth_error (split slash location) 2 = Some h /\
         ((exists e, r = Raise e) \/
          (exists resp,
              getresponse env (post_request h control_url port_number ip)
              = Ok resp /\
              r = Return (status resp =? 200)%Z)))).
Proof.
  unfold add_port_mapping, netloc.
  destruct (nth_error (split slash location) 2) as [h|] eqn:Eh; unfold_py;
    [|eexists; eexists; split; [reflexivity|left; eauto]].
  destruct (HTTPConnection env h); unfold_py;
    [eexists; eexists; split; [reflexivity|left; eauto]|].
  destruct (gethostname env) as [name|]; unfold_py;
    [|eexists; eexists; split; [reflexivity|left; eauto]].
  destruct (gethostbyname env name) as [ip|]; unfold_py;
    [|eexists; eexists; split; [reflexivity|left; eauto]].
  destruct (conn_request env _); unfold_py;
    [eexists; eexists; split;
     [reflexivity|right; exists h, ip; cbn [requests]; eauto]|].
  destruct (getresponse env _) as [resp|] eqn:Er; unfold_py;
    [|eexists; eexists; split;
      [reflexivity|right; exists h, ip; cbn [requests]; eauto]].
  destruct (status resp =? 200)%Z eqn:Es; unfold_py;
    (eexists; eexists; split;
     [reflexivity
     |right; exists h, ip; cbn [requests]; repeat split;
      right; exists resp; rewrite Es; split; [assumption|reflexivity]]).
Qed.

(** The mapping stage, call by call. *)
Lemma add_port_mapping_cases (port_number : Z) (location : str)
    (control_url : option str) :
  add_port_mapping env port_number location control_url =
  match nth_error (split slash location) 2 with
  | None => Some (Raise IndexError, [])
  | Some h =>
      match HTTPConnection env h with
      | Some e => Some (Raise e, [])
      | None =>
          match gethostname env with
          | Err e => Some (Raise e, [])
          | Ok name =>
              match gethostbyname env name with
              | Err e => Some (Raise e, [])
              | Ok ip =>
                  let rq := post_request h control_url port_number ip in
                  match conn_request env rq with
                  | Some e => Some (Raise e, [Request rq])
                  | None =>
                      match getresponse env rq with
                      | Err e => Some (Raise e, [Request rq])
                      | Ok response =>
                          if (status response =? 200)%Z
                          then Some (Return true,
                                     [Request rq; Log (Opened port_number)])
                          else Some (Return false,
                                     [Request rq;
                                      Log (FailedToOpen port_number
                                             (status response))])
                      end
                  end
              end
          end
      end
  end.
Proof.
  unfold add_port_mapping, netloc.
  destruct (nth_error (split slash location) 2) as [h|]; [|reflexivity].
  unfold_py. destruct (HTTPConnection env h); [reflexivity|]. unfold_py.
  destruct (gethostname env) as [name|]; [|reflexivity]. unfold_py.
  destruct (gethostbyname env name) as [ip|]; [|reflexivity]. unfold_py.
  cbv zeta.
  destruct (conn_request env _); [reflexivity|]. unfold_py.
  destruct (getresponse env _) as [response|]; [|reflexivity]. unfold_py.
  destruct (status response =? 200)%Z; reflexivity.
Qed.

End Stages.

(** ** The call, stage by stage *)

Section Call.

Variables (fuel : nat) (env : Env) (port_number : Z).

Lemma open_upnp_port_staged :
  open_upnp_port fuel env port_number =
  match discover fuel env with
  | None => None
  | Some (Return b, t1) => Some (Returns b, Log (Attempting port_number) :: t1)
  | Some (Raise e, t1) =>
      Some (Returns false,
            Log (Attempting port_number) :: t1 ++ [Log (ErrorInOpening e)])
  | Some (Val location, t1) =>
      match fetch_description env location with
      | None => None
      | Some (Return b, t2) =>
          Some (Returns b, Log (Attempting port_number) :: t1 ++ t2)
      | Some (Raise e, t2) =>
          Some (Returns false,
                Log (Attempting port_number)
                :: (t1 ++ t2) ++ [Log (ErrorInOpening e)])
      | Some (Val root, t2) =>
          match for_service (findall "service" root) with
          | None => None
          | Some (Return b, t3) =>
              Some (Returns b,
                    Log (Attempting port_number) :: t1 ++ t2 ++ t3)
          | Some (Raise e, t3) =>
              Some (Returns false,
                    Log (Attempting port_number)
                    :: (t1 ++ t2 ++ t3) ++ [Log (ErrorInOpening e)])
          | Some (Val control_url, t3) =>
              match
                add_port_mapping env port_number location control_url
              with
              | None => None
              | Some (Return b, t4) =>
                  Some (Returns b,
                        Log (Attempting port_number)
                        :: t1 ++ t2 ++ t3
                           ++ Log (FoundControlURL control_url) :: t4)
              | Some (Raise e, t4) =>
                  Some (Returns false,
                        Log (Attempting port_number)
                        :: (t1 ++ t2 ++ t3
                            ++ Log (FoundControlURL control_url) :: t4)
                           ++ [Log (ErrorInOpening e)])
              | Some (Val v, _) => match v with end
              end
          end
      end
  end.
Proof.
  unfold open_upnp_port, try_body.
  destruct (discover fuel env) as [[[location|b|e] t1]|]; try reflexivity.
  unfold_py.
  destruct (fetch_description env location) as [[[root|b|e] t2]|];
    try reflexivity.
  unfold_py.
  destruct (for_service (findall "service" root))
    as [[[control_url|b|e] t3]|]; try reflexivity.
  unfold_py.
  destruct (add_port_mapping env port_number location control_url)
    as [[[v|b|e] t4]|]; reflexivity.
Qed.

(** A discovery that gives no location ends the call with [False], and no
    HTTP request is made. *)
Lemma open_discovery_fails r t1 :
  discover fuel env = Some (r, t1) ->
  (forall location, r <> Val location) ->
  exists t,
    open_upnp_port fuel env port_number = Some (Returns false, t) /\
    requests t = [].
Proof.
  intros Hd Hr. rewrite open_upnp_port_staged, Hd.
  destruct (discover_quiet _ _ Hd) as [Hq Hb].
  destruct r as [location|b|e].
  - now elim (Hr location).
  - rewrite (Hb b eq_refl). eexists; split; [reflexivity|exact Hq].
  - eexists; split; [reflexivity|].
    cbn [requests]. rewrite requests_app, Hq. reflexivity.
Qed.

(** A walk that gives no control URL ends the call with [False] after the
    GET alone. *)
Lemma open_walk_fails location root t1 t2 r t3 :
  discover fuel env = Some (Val location, t1) ->
  fetch_description env location = Some (Val root, t2) ->
  for_service (findall "service" root) = Some (r, t3) ->
  (forall control_url, r <> Val control_url) ->
  exists t h,
    open_upnp_port fuel env port_number = Some (Returns false, t) /\
    nth_error (split slash location) 2 = Some h /\
    requests t = [get_request h location] /\
    logs t = Attempting port_number :: logs t1
             ++ match r with
                | Raise e => [ErrorInOpening e]
                | _ => [NoWANIPConnection]
                end.
Proof.
  intros Hd Hf Hw Hr. rewrite open_upnp_port_staged, Hd, Hf, Hw.
  destruct (discover_quiet _ _ Hd) as [Hq _].
  destruct (fetch_description_shape _ _ Hf)
    as [(_ & e & [=])|(h & Hh & _ & -> & _)].
  destruct (for_service_shape (findall "service" root))
    as [(cu & Hs)|[Hs|Hs]]; rewrite Hs in Hw; injection Hw as <- <-.
  - now elim (Hr cu).
  - eexists; exists h; split; [reflexivity|]. split; [exact Hh|].
    cbn [requests logs]. rewrite requests_app, logs_app, Hq. now split.
  - eexists; exists h; split; [reflexivity|]. split; [exact Hh|].
    cbn [requests logs].
    rewrite !requests_app, !logs_app, Hq. cbn [requests logs app].
    rewrite app_nil_r. now split.
Qed.

End Call.

(** ** Fuel *)

Section Fuel.

Variable env : Env.

(** Once the loop has ended, more fuel changes nothing. *)
Lemma while_True_more_fuel (fuel : nat) :
  forall k x,
    while_True fuel env k = Some x -> while_True (S fuel) env k = Some x.
Proof.
  induction fuel as [|fuel IH]; intros k x H; [discriminate|].
  change (while_True (S (S fuel)) env k)
    with (bind (loop_body env k)
            (fun r => match r with
                      | Some location => ret location
                      | None => while_True (S fuel) env (S k)
                      end)).
  simpl in H.
  destruct (loop_body env k) as [[[[location|]|b|e] t]|]; simpl in *;
    try exact H.
  destruct (while_True fuel env (S k)) as [y|] eqn:E; [|discriminate].
  now rewrite (IH _ _ E).
Qed.

Lemma discover_more_fuel (fuel : nat) x :
  discover fuel env = Some x -> discover (S fuel) env = Some x.
Proof.
  rewrite !discover_cases.
  destruct (socket_socket env); [tauto|].
  destruct (setsockopt env); [tauto|].
  destruct (sendto env _ _ _); [tauto|].
  destruct (while_True fuel env 0) as [y|] eqn:E; [|discriminate].
  now rewrite (while_True_more_fuel _ _ E).
Qed.

Lemma open_upnp_port_more_fuel (port_number : Z) (fuel fuel' : nat) x :
  fuel <= fuel' ->
  open_upnp_port fuel env port_number = Some x ->
  open_upnp_port fuel' env port_number = Some x.
Proof.
  intros Hle H. induction Hle as [|m _ IH]; [exact H|].
  rewrite open_upnp_port_staged in IH |- *.
  destruct (discover m env) as [y|] eqn:E; [|discriminate].
  now rewrite (discover_more_fuel _ E).
Qed.

End Fuel.

(** ** The walk over the service elements *)

Section Walk.

Lemma for_service_first (pre post : list element) (s c : element) (t : str) :
  Forall (fun x => is_other x = true) pre ->
  service_type s = Some t ->
  endswith WANIPConnection t = true ->
  find "controlURL" s = Some c ->
  for_service (pre ++ s :: post) = Some (Val (text c), []).
Proof.
  intros Hpre Ht He Hc. induction Hpre as [|x pre Hx _ IH].
  - simpl app. now rewrite for_service_cons, Ht, He, Hc.
  - rewrite <- app_comm_cons, for_service_cons.
    unfold is_other in Hx. destruct (service_type x) as [tx|]; [|discriminate].
    apply negb_true_iff in Hx. now rewrite Hx.
Qed.

Lemma for_service_none (services : list element) :
  Forall (fun x => is_other x = true) services ->
  for_service services = Some (Return false, [Log NoWANIPConnection]).
Proof.
  intros H. induction H as [|x l Hx _ IH]; [reflexivity|].
  rewrite for_service_cons.
  unfold is_other in Hx. destruct (service_type x) as [tx|]; [|discriminate].
  apply negb_true_iff in Hx. now rewrite Hx.
Qed.

Lemma for_service_no_match (services : list element) :
  Forall (fun x => is_wanip x = false) services ->
  for_service services = Some (Return false, [Log NoWANIPConnection]) \/
  for_service services = Some (Raise AttributeError, []).
Proof.
  intros H. induction H as [|x l Hx _ IH]; [left; reflexivity|].
  rewrite for_service_cons.
  unfold is_wanip in Hx. destruct (service_type x) as [tx|]; [|now right].
  now rewrite Hx.
Qed.

Lemma for_service_malformed (pre post : list element) (s : element) :
  Forall (fun x => is_wanip x = false) pre ->
  find "serviceType" s = None \/
  (is_wanip s = true /\ find "controlURL" s = None) ->
  for_service (pre ++ s :: post) = Some (Raise AttributeError, []).
Proof.
  intros Hpre Hs. induction Hpre as [|x pre Hx _ IH].
  - simpl app. rewrite for_service_cons. unfold is_wanip, service_type in *.
    destruct Hs as [->|[Hw ->]]; [reflexivity|].
    destruct (find "serviceType" s) as [c|]; [|discriminate].
    destruct (text c) as [t|]; [|discriminate]. now rewrite Hw.
  - rewrite <- app_comm_cons, for_service_cons.
    unfold is_wanip in Hx. destruct (service_type x) as [tx|]; [|reflexivity].
    now rewrite Hx.
Qed.

End Walk.

(** ** Every run, by its requests *)

Section Runs.

Variables (fuel : nat) (env : Env) (port_number : Z).




(** A run makes no request, or the GET alone, or the GET and then the
    POST of line 95 for this very port. *)
Lemma open_upnp_port_requests o t :
  open_upnp_port fuel env port_number = Some (o, t) ->
  requests t = [] \/
  (exists h location, requests t = [get_request h location]) \/
  (exists h location control_url ip,
      requests t = [get_request h location;
                    post_request h control_url port_number ip]).
Proof.
  rewrite open_upnp_port_staged.
  destruct (discover fuel env) as [[r1 t1]|] eqn:Hd; [|discriminate].
  destruct (discover_quiet _ _ Hd) as [Hq _].
  destruct r1 as [location|b|e];
    [|intros [= <- <-]; left; exact Hq
     |intros [= <- <-]; left; cbn [requests];
      rewrite requests_app, Hq; reflexivity].
  destruct (fetch_description env location) as [[r2 t2]|] eqn:Hf;
    [|discriminate].
  destruct (fetch_description_shape _ _ Hf)
    as [(-> & e & ->)|(h & Hh & _ & -> & Hr2)].
  { intros [= <- <-]. left. cbn [requests].
    rewrite !requests_app, Hq. reflexivity. }
  destruct r2 as [root|b|e];
    [|now elim (Hr2 b)
     |intros [= <- <-]; right; left; exists h, location; cbn [requests];
      rewrite !requests_app, Hq; reflexivity].
  destruct (for_service_shape (findall "service" root))
    as [(cu & ->)|[->| ->]];
    [|intros [= <- <-]; right; left; exists h, location; cbn [requests];
      rewrite !requests_app, Hq; reflexivity ..].
  destruct (add_port_mapping_shape env port_number location cu)
    as (r & t4 & -> & [(-> & e & ->)|(h' & ip & Hrq & Hh' & Hr)]).
  { intros [= <- <-]. right; left; exists h, location. cbn [requests].
    rewrite !requests_app, Hq. reflexivity. }
  rewrite Hh in Hh'. injection Hh' as <-.
  assert (forall tail,
            requests (Log (Attempting port_number)
                      :: t1 ++ [Request (get_request h location)] ++ []
                         ++ Log (FoundControlURL cu) :: t4 ++ tail)
            = get_request h location
              :: post_request h cu port_number ip :: requests tail) as Hall.
  { intros tail. cbn [requests app].
    rewrite !requests_app, Hq. cbn [requests app].
    rewrite requests_app, Hrq. reflexivity. }
  destruct r as [v|b|e]; [destruct v| |]; intros [= <- <-];
    right; right; exists h, location, cu, ip.
  - rewrite <- (app_nil_r t4). apply (Hall []).
  - rewrite <- !app_assoc. apply (Hall [Log (ErrorInOpening e)]).
Qed.

End Runs.

(** ** Environments that answer alike *)

Section SameReplies.

Variables (e1 e2 : Env).

Lemma loop_body_same (k : nat) :
  recvfrom e1 k = recvfrom e2 k -> loop_body e1 k = loop_body e2 k.
Proof. intros H. now rewrite !loop_body_cases, H. Qed.

Lemma while_True_same (fuel : nat) :
  forall k,
    (forall i, k <= i < k + fuel -> recvfrom e1 i = recvfrom e2 i) ->
    while_True fuel e1 k = while_True fuel e2 k.
Proof.
  induction fuel as [|fuel IH]; intros k H; [reflexivity|].
  simpl. rewrite (loop_body_same k) by (apply H; lia).
  apply bind_ext. intros [location|]; [reflexivity|].
  apply IH. intros i Hi. apply H. lia.
Qed.

Variable fuel : nat.
Hypothesis same : same_replies fuel e1 e2.

Lemma discover_same : discover fuel e1 = discover fuel e2.
Proof.
  rewrite !discover_cases.
  rewrite (same_socket same), (same_setsockopt same), (same_sendto same).
  rewrite (@while_True_same fuel 0); [reflexivity|].
  intros i Hi. apply (same_recvfrom same). lia.
Qed.

Lemma fetch_description_same (location : str) :
  fetch_description e1 location = fetch_description e2 location.
Proof.
  unfold fetch_description.
  apply bind_ext; intros h. rewrite (same_HTTPConnection same).
  apply bind_ext; intros _. apply bind_ext; intros _.
  rewrite (same_conn_request same). apply bind_ext; intros _.
  rewrite (same_getresponse same). apply bind_ext; intros response.
  apply bind_ext; intros data. now rewrite (same_fromstring same).
Qed.

Lemma add_port_mapping_same (port_number : Z) (location : str)
    (control_url : option str) :
  add_port_mapping e1 port_number location control_url
  = add_port_mapping e2 port_number location control_url.
Proof.
  unfold add_port_mapping.
  apply bind_ext; intros h. rewrite (same_HTTPConnection same).
  apply bind_ext; intros _. rewrite (same_gethostname same).
  apply bind_ext; intros name. rewrite (same_gethostbyname same).
  apply bind_ext; intros ip. apply bind_ext; intros _.
  rewrite (same_conn_request same). apply bind_ext; intros _.
  now rewrite (same_getresponse same).
Qed.

End SameReplies.

(** ** Decimal texts *)

Section DecimalTexts.

Lemma lit_String (a : ascii) (s : string) :
  lit (String a s) = N_of_ascii a :: lit s.
Proof. reflexivity. Qed.

Lemma digits_value_acc (d : Decimal.uint) :
  forall acc : positive,
    digits_value (Z.pos acc) (lit (NilEmpty.string_of_uint d))
    = Some (Z.pos (Pos.of_uint_acc d acc)).
Proof.
  induction d; intros acc; cbn [NilEmpty.string_of_uint Pos.of_uint_acc];
    [reflexivity|rewrite lit_String; cbn [digits_value];
     match goal with
     | |- context [digit ?c] =>
         let v := eval vm_compute in (digit c) in
         change (digit c) with v; cbv iota
     end;
     rewrite <- IHd; f_equal; lia ..].
Qed.

Lemma digits_value_uint (d : Decimal.uint) :
  digits_value 0 (lit (NilEmpty.string_of_uint d))
  = Some (Z.of_N (Pos.of_uint d)).
Proof.
  induction d; cbn [NilEmpty.string_of_uint Pos.of_uint];
    [reflexivity|rewrite lit_String; cbn [digits_value];
     match goal with
     | |- context [digit ?c] =>
         let v := eval vm_compute in (digit c) in
         change (digit c) with v; cbv iota
     end;
     first [exact IHd | apply (digits_value_acc d)] ..].
Qed.

Lemma digits_value_to_uint (p : positive) :
  digits_value 0 (lit (NilZero.string_of_uint (Pos.to_uint p)))
  = Some (Z.pos p).
Proof.
  pose proof (Unsigned.to_uint_nonnil p) as Hnil.
  pose proof (Unsigned.of_to p) as Hp.
  destruct (Pos.to_uint p) eqn:E; [now elim Hnil|..];
    cbv beta iota delta [NilZero.string_of_uint];
    rewrite digits_value_uint, Hp; reflexivity.
Qed.

(** The text of an [int] is a numeral of that [int]. *)
Lemma to_int_of_int (n : Z) : to_int (of_int n) = Some n.
Proof.
  unfold of_int. destruct n as [|p|p]; cbn [Z.to_int NilZero.string_of_int].
  - reflexivity.
  - pose proof (digits_value_to_uint p) as H.
    pose proof (Unsigned.to_uint_nonnil p) as Hnil.
    destruct (Pos.to_uint p) eqn:E; [now elim Hnil|..];
      cbv beta iota delta [NilZero.string_of_uint] in *;
      cbn [NilEmpty.string_of_uint] in *; rewrite lit_String in *;
      unfold to_int;
      match goal with
      | |- context [N.eqb ?c 45] =>
          let v := eval vm_compute in (N.eqb c 45) in
          change (N.eqb c 45) with v; cbv iota
      end; exact H.
  - pose proof (digits_value_to_uint p) as H.
    rewrite lit_String. unfold to_int.
    change (N.eqb (N_of_ascii "-") 45) with true. cbv iota.
    destruct (lit (NilZero.string_of_uint (Pos.to_uint p))) eqn:E.
    + discriminate H.
    + rewrite H. reflexivity.
Qed.

(** Every port number, and every [int] up to 4300 digits, has a text. *)
Lemma str_int_text (n : Z) :
  (Z.abs n < 10 ^ int_max_str_digits)%Z -> str_int n = Ok (of_int n).
Proof.
  intros H. unfold str_int.
  destruct (Z.abs n <? 10 ^ int_max_str_digits)%Z eqn:E; [reflexivity|].
  apply Z.ltb_ge in E. exfalso. apply (Z.lt_irrefl (Z.abs n)).
  eapply Z.lt_le_trans; eassumption.
Qed.

Lemma port_has_text (n : Z) :
  (Z.abs n < 65536)%Z -> (Z.abs n < 10 ^ int_max_str_digits)%Z.
Proof.
  intros H. apply (Z.lt_le_trans _ (10 ^ 5)%Z).
  - eapply Z.lt_trans; [exact H|reflexivity].
  - apply Z.pow_le_mono_r; [reflexivity|discriminate].
Qed.


End DecimalTexts.

(** ** The call for every [int] *)

Section EveryInt.

Variables (fuel : nat) (env : Env) (port_number : Z).

Lemma open_upnp_port_call_text :
  (Z.abs port_number < 10 ^ int_max_str_digits)%Z ->
  open_upnp_port_call fuel env port_number
  = open_upnp_port fuel env port_number.
Proof.
  intros H. unfold open_upnp_port_call. now rewrite (str_int_text _ H).
Qed.

(** From the [logging.info] call on, nothing reaches the caller: the
    handler of line 107 names [Exception]. *)
Lemma open_upnp_port_never_propagates e t :
  open_upnp_port fuel env port_number <> Some (Propagates e, t).
Proof.
  unfold open_upnp_port.
  destruct (try_body fuel env port_number) as [[[v|b|e'] t']|];
    [destruct v|..]; unfold_py; discriminate.
Qed.

(** The one exception a call lets through is the [ValueError] of line 22,
    for a port without a text and before any event. *)
Lemma open_upnp_port_call_propagates e t :
  open_upnp_port_call fuel env port_number = Some (Propagates e, t) <->
  e = ValueError /\ t = [] /\
  (10 ^ int_max_str_digits <= Z.abs port_number)%Z.
Proof.
  unfold open_upnp_port_call, str_int.
  destruct (Z.abs port_number <? 10 ^ int_max_str_digits)%Z eqn:E.
  - apply Z.ltb_lt in E. split.
    + intros H. now apply open_upnp_port_never_propagates in H.
    + intros (_ & _ & H). exfalso. apply (Z.lt_irrefl (Z.abs port_number)).
      eapply Z.lt_le_trans; eassumption.
  - apply Z.ltb_ge in E. split.
    + intros [= <- <-]. auto.
    + intros (-> & -> & _). reflexivity.
Qed.

(** A call that produced an event is a call for a port with a text. *)
Lemma open_upnp_port_call_run o t :
  open_upnp_port_call fuel env port_number = Some (o, t) ->
  t = [] \/ open_upnp_port fuel env port_number = Some (o, t).
Proof.
  unfold open_upnp_port_call.
  destruct (str_int port_number); [now right|].
  intros [= <- <-]. now left.
Qed.

End EveryInt.

Lemma open_nat_port_call_text (env : LocalEnv) (port_number : Z) :
  (Z.abs port_number < 10 ^ int_max_str_digits)%Z ->
  open_nat_port_call env port_number = open_nat_port env port_number.
Proof.
  intros H. unfold open_nat_port_call. now rewrite (str_int_text _ H).
Qed.

(** ** The envelope, character by character *)

Lemma occurs_concat (x : str) (segments : list str) :
  In x segments -> occurs x (concat segments).
Proof.
  intros H. apply in_split in H as (l1 & l2 & ->).
  exists (concat l1), (concat l2).
  now rewrite concat_app.
Qed.

(** The f-string of lines 73-87 with its fields filled; 34 is the double
    quote and 10 the line feed. *)
Lemma soap_body_text (port_number : Z) (ip : str) :
  soap_body port_number ip =
  lit "<?xml version=" ++ [34%N] ++ lit "1.0" ++ [34%N] ++ lit "?>" ++ [10%N]
  ++ lit "        <s:Envelope xmlns:s=" ++ [34%N]
  ++ lit "http://schemas.xmlsoap.org/soap/envelope/" ++ [34%N]
  ++ lit " s:encodingStyle=" ++ [34%N]
  ++ lit "http://schemas.xmlsoap.org/soap/encoding/" ++ [34%N]
  ++ lit ">" ++ [10%N]
  ++ lit "            <s:Body>" ++ [10%N]
  ++ lit "                <u:AddPortMapping xmlns:u=" ++ [34%N]
  ++ lit "urn:schemas-upnp-org:service:WANIPConnection:1" ++ [34%N]
  ++ lit ">" ++ [10%N]
  ++ lit "                    <NewRemoteHost></NewRemoteHost>" ++ [10%N]
  ++ lit "                    <NewExternalPort>" ++ of_int port_number
  ++ lit "</NewExternalPort>" ++ [10%N]
  ++ lit "                    <NewProtocol>TCP</NewProtocol>" ++ [10%N]
  ++ lit "                    <NewInternalPort>" ++ of_int port_number
  ++ lit "</NewInternalPort>" ++ [10%N]
  ++ lit "                    <NewInternalClient>" ++ ip
  ++ lit "</NewInternalClient>" ++ [10%N]
  ++ lit "                    <NewEnabled>1</NewEnabled>" ++ [10%N]
  ++ lit "                    <NewPortMappingDescription>UPnP Port Mapping</NewPortMappingDescription>"
  ++ [10%N]
  ++ lit "                    <NewLeaseDuration>0</NewLeaseDuration>" ++ [10%N]
  ++ lit "                </u:AddPortMapping>" ++ [10%N]
  ++ lit "            </s:Body>" ++ [10%N]
  ++ lit "        </s:Envelope>".
Proof.
  unfold soap_body, soap_segments, elem.
  cbn [concat]. rewrite <- !app_assoc. rewrite app_nil_r.
  reflexivity.
Qed.

(** The keys of [headers] are distinct: the value under a key is the one
    the dictionary literal gives it. *)
Lemma headers_value (k v : str) :
  In (k, v) headers <->
  (k = lit "SOAPAction" /\
   v = [34%N]
       ++ lit "urn:schemas-upnp-org:service:WANIPConnection:1#AddPortMapping"
       ++ [34%N]) \/
  (k = lit "Content-Type" /\
   v = lit "text/xml; charset=" ++ [34%N] ++ lit "utf-8" ++ [34%N]) \/
  (k = lit "Connection" /\ v = lit "close").
Proof.
  unfold headers. split.
  - intros [[= <- <-]|[[= <- <-]|[[= <- <-]|[]]]]; auto.
  - intros [[-> ->]|[[-> ->]|[-> ->]]];
      [left|right; left|right; right; left]; reflexivity.
Qed.

(** ** The embedding is a function of the answers *)

(** Against two environments that answer alike every call a run can make,
    the embedding gives the same outcome and the same events.  This is a
    fact about the embedding, in which a call is a function of the port and
    of the answers it gets.  That the Python function keeps nothing from
    one call to the next is how its body was read here (it assigns local
    names only, and no module-level name or attribute): it is built into
    every definition above and is not what this lemma establishes. *)
Lemma same_replies_same_result (fuel : nat) (e1 e2 : Env)
    (port_number : Z) :
  same_replies fuel e1 e2 ->
  open_upnp_port fuel e1 port_number = open_upnp_port fuel e2 port_number.
Proof.
  intros same.
  assert (try_body fuel e1 port_number = try_body fuel e2 port_number) as H.
  { unfold try_body. rewrite (discover_same same).
    apply bind_ext; intros location.
    rewrite (fetch_description_same same).
    apply bind_ext; intros root. apply bind_ext; intros control_url.
    apply bind_ext; intros _. apply (add_port_mapping_same same). }
  unfold open_upnp_port. now rewrite H.
Qed.

Lemma same_replies_same_result_witness :
  open_upnp_port 2 (Demo.gateway 200) 1234
  = open_upnp_port 2 Demo.busy_gateway 1234.
Proof.
  apply (@same_replies_same_result 2 (Demo.gateway 200) Demo.busy_gateway).
  constructor; try reflexivity.
  intros k Hk. destruct k as [|[|k]]; [reflexivity|reflexivity|lia].
Defined.

(** ** The claims *)

(** C1.  When discovery, the fetch of the description and the walk over its
    services have succeeded: if the POST of line 95 is answered by a
    response, [open_upnp_port] returns [True] exactly when the status of
    that response is 200 and [False] for every other status, whatever the
    body of the response (it is never read); and [open_upnp_port] returns
    [True] only when that POST was answered with status 200. *)
Theorem open_upnp_port_status_200 (fuel : nat) (env : Env) (port_number : Z)
    (location : str) (root : element) (control_url : option str)
    (t1 t2 t3 : trace) (h : str) :
  discover fuel env = Some (Val location, t1) ->
  fetch_description env location = Some (Val root, t2) ->
  for_service (findall "service" root) = Some (Val control_url, t3) ->
  nth_error (split slash location) 2 = Some h ->
  (forall name ip resp,
      gethostname env = Ok name ->
      gethostbyname env name = Ok ip ->
      conn_request env (post_request h control_url port_number ip) = None ->
      getresponse env (post_request h control_url port_number ip) = Ok resp ->
      exists t,
        open_upnp_port fuel env port_number
        = Some (Returns (status resp =? 200)%Z, t) /\
        requests t = [get_request h location;
                      post_request h control_url port_number ip]) /\
  (forall t,
      open_upnp_port fuel env port_number = Some (Returns true, t) ->
      exists ip resp,
        getresponse env (post_request h control_url port_number ip) = Ok resp /\
        status resp = 200%Z /\
        requests t = [get_request h location;
                      post_request h control_url port_number ip]).
Proof.
  intros Hd Hf Hw Hh.
  destruct (discover_quiet _ _ Hd) as [Hq _].
  destruct (fetch_description_shape _ _ Hf)
    as [(_ & e & [=])|(h' & Hh' & Hc & -> & _)].
  rewrite Hh in Hh'. injection Hh' as <-.
  destruct (for_service_shape (findall "service" root))
    as [(cu & Hs)|[Hs|Hs]]; rewrite Hs in Hw; try discriminate.
  injection Hw as <- <-. split.
  - intros name ip resp Hname Hip Hreq Hresp.
    rewrite open_upnp_port_staged, Hd, Hf, Hs.
    unfold add_port_mapping, netloc.
    rewrite Hh. unfold_py. rewrite Hc. unfold_py.
    rewrite Hname. unfold_py. rewrite Hip. unfold_py.
    rewrite Hreq. unfold_py. rewrite Hresp. unfold_py.
    destruct (status resp =? 200)%Z; unfold_py;
      (eexists; split; [reflexivity|]);
      cbn [requests]; rewrite requests_app, Hq; reflexivity.
  - intros t. rewrite open_upnp_port_staged, Hd, Hf, Hs.
    destruct (add_port_mapping_shape env port_number location cu)
      as (r & t4 & -> & [(-> & e & ->)|(h' & ip & Hrq & Hh' & Hr)]);
      [discriminate|].
    rewrite Hh in Hh'. injection Hh' as <-.
    destruct Hr as [(e & ->)|(resp & Hresp & ->)]; [discriminate|].
    intros [= Hb <-]. exists ip, resp.
    split; [exact Hresp|]. split; [now apply Z.eqb_eq|].
    cbn [requests app]. rewrite !requests_app, Hq. cbn [requests app].
    now rewrite Hrq.
Qed.

Lemma open_upnp_port_status_200_witness :
  (forall name ip resp,
      gethostname (Demo.gateway 200) = Ok name ->
      gethostbyname (Demo.gateway 200) name = Ok ip ->
      conn_request (Demo.gateway 200)
        (post_request Demo.netloc (Some (lit "/ctl/IPConn")) 1234 ip) = None ->
      getresponse (Demo.gateway 200)
        (post_request Demo.netloc (Some (lit "/ctl/IPConn")) 1234 ip)
      = Ok resp ->
      exists t,
        open_upnp_port 5 (Demo.gateway 200) 1234
        = Some (Returns (status resp =? 200)%Z, t) /\
        requests t = [get_request Demo.netloc Demo.location;
                      post_request Demo.netloc (Some (lit "/ctl/IPConn"))
                        1234 ip]) /\
  (forall t,
      open_upnp_port 5 (Demo.gateway 200) 1234 = Some (Returns true, t) ->
      exists ip resp,
        getresponse (Demo.gateway 200)
          (post_request Demo.netloc (Some (lit "/ctl/IPConn")) 1234 ip)
        = Ok resp /\
        status resp = 200%Z /\
        requests t = [get_request Demo.netloc Demo.location;
                      post_request Demo.netloc (Some (lit "/ctl/IPConn"))
                        1234 ip]).
Proof.
  refine (@open_upnp_port_status_200 5 (Demo.gateway 200) 1234
            Demo.location (Demo.device [Demo.layer3; Demo.ipconn])
            (Some (lit "/ctl/IPConn")) _ _ _ Demo.netloc _ _ _ _);
    vm_compute; reflexivity.
Defined.

(** C3.  If a receive times out and no earlier receive gave a location,
    [open_upnp_port] returns [False] and makes no HTTP request at all:
    neither the GET of the description nor the mapping POST. *)
Theorem discovery_timeout_short_circuits (fuel : nat) (env : Env)
    (port_number : Z) (n : nat) :
  n < fuel ->
  (forall i, i < n -> reply_location env i = None) ->
  recvfrom env n = Err socket_timeout ->
  exists t,
    open_upnp_port fuel env port_number = Some (Returns false, t) /\
    requests t = [].
Proof.
  intros Hn Hno Hto.
  destruct (discover_no_reply env Hn Hno Hto) as (r & t1 & Hd & Hr).
  eapply open_discovery_fails; eassumption.
Qed.

Lemma discovery_timeout_short_circuits_witness :
  exists t,
    open_upnp_port 5 Demo.silent 1234 = Some (Returns false, t) /\
    requests t = [].
Proof.
  apply (@discovery_timeout_short_circuits 5 Demo.silent 1234 1).
  - lia.
  - intros i Hi. assert (i = 0) as -> by lia. vm_compute. reflexivity.
  - reflexivity.
Defined.

(** C4, as the code has it.  For a datagram in whose text the characters
    [LOCATION: ] occur for the first time at the [LOCATION] header, with a
    value free of line feeds and closed by CR LF, the loop breaks with
    [location] equal to exactly that value: the text between [LOCATION: ]
    and the CR LF, unchanged. *)
Theorem location_is_header_value (fuel : nat) (env : Env) (k : nat)
    (data : Utf8.bytes) (pre v post : str) :
  recvfrom env k = Ok data ->
  Utf8.decode data
  = Some (pre ++ Re.LOCATION_colon ++ v ++ CR :: LF :: post) ->
  contains Re.LOCATION_colon pre = false ->
  ~ In LF v ->
  while_True (S fuel) env k = Some (Val v, [Log (FoundDevice v)]).
Proof.
  intros Hr Hd Hpre Hv. apply while_True_found.
  unfold reply_location. rewrite Hr, Hd, LOCATION_in_header.
  now apply search_first_header.
Qed.

Lemma location_is_header_value_witness :
  while_True 1 (Demo.gateway 200) 1
  = Some (Val Demo.location, [Log (FoundDevice Demo.location)]).
Proof.
  apply (@location_is_header_value 0 (Demo.gateway 200) 1 Demo.reply
           (lit "HTTP/1.1 200 OK" ++ [CR; LF]) Demo.location [CR; LF]).
  - reflexivity.
  - vm_compute. reflexivity.
  - vm_compute. reflexivity.
  - vm_compute. intuition discriminate.
Defined.

(** C4, as stated, fails: in a reply whose [LOCATION] header follows a
    header with a name that ends in LOCATION, the pattern of line 46 first
    matches inside that earlier line, and the loop breaks with the value of
    the earlier header, not with the value of the [LOCATION] header. *)
Lemma earlier_header_value_is_taken :
  recvfrom DemoMore.mirrored 0 = Ok DemoMore.mirrored_reply /\
  Utf8.decode DemoMore.mirrored_reply
  = Some ((lit "HTTP/1.1 200 OK" ++ [CR; LF]
           ++ lit "CONTENT-LOCATION: /index.html" ++ [CR; LF])
          ++ lit "LOCATION: " ++ Demo.location ++ CR :: LF :: [CR; LF]) /\
  ~ In LF Demo.location /\
  while_True 1 DemoMore.mirrored 0
  = Some (Val (lit "/index.html"), [Log (FoundDevice (lit "/index.html"))]) /\
  lit "/index.html" <> Demo.location.
Proof.
  split; [reflexivity|]. split; [vm_compute; reflexivity|].
  split; [vm_compute; intuition discriminate|].
  split; [vm_compute; reflexivity|]. vm_compute. discriminate.
Qed.




(** C5.  On a description whose service elements, up to the first one
    whose [serviceType] text ends with [WANIPConnection], all carry a
    [serviceType] text, the walk goes through them in document order and
    gives the text of that first service's [controlURL], unchanged.  The
    run then returns, and the request it makes after the GET, if any, is a
    POST to the host of the description whose url is exactly that text;
    that POST is made whenever the host's own name resolves.  A
    description with a single such service is the case where no other
    service matches. *)
Theorem first_wanip_control_url (fuel : nat) (env : Env) (port_number : Z)
    (location : str) (root : element) (t1 t2 : trace)
    (pre post : list element) (s c : element) (t : str) :
  discover fuel env = Some (Val location, t1) ->
  fetch_description env location = Some (Val root, t2) ->
  findall "service" root = pre ++ s :: post ->
  Forall (fun x => is_other x = true) pre ->
  service_type s = Some t ->
  endswith WANIPConnection t = true ->
  find "controlURL" s = Some c ->
  for_service (findall "service" root) = Some (Val (text c), []) /\
  exists b tr h,
    nth_error (split slash location) 2 = Some h /\
    open_upnp_port fuel env port_number = Some (Returns b, tr) /\
    (requests tr = [get_request h location] \/
     exists rq,
       requests tr = [get_request h location; rq] /\
       method rq = lit "POST" /\ host rq = h /\ url rq = text c) /\
    (forall name ip,
        gethostname env = Ok name ->
        gethostbyname env name = Ok ip ->
        exists rq,
          requests tr = [get_request h location; rq] /\
          method rq = lit "POST" /\ host rq = h /\ url rq = text c).
Proof.
  intros Hd Hf Hall Hpre Ht He Hc.
  assert (for_service (findall "service" root) = Some (Val (text c), []))
    as Hw by (rewrite Hall; eapply for_service_first; eassumption).
  split; [exact Hw|].
  destruct (discover_quiet _ _ Hd) as [Hq _].
  destruct (fetch_description_shape _ _ Hf)
    as [(_ & e & [=])|(h & Hh & Hconn & -> & _)].
  rewrite open_upnp_port_staged, Hd, Hf, Hw, add_port_mapping_cases, Hh,
    Hconn.
  cbv zeta.
  destruct (gethostname env) as [name|e1] eqn:En.
  2: { eexists; eexists; exists h. split; [reflexivity|].
       split; [reflexivity|]. split; [|discriminate].
       left. cbn [requests app]. rewrite !requests_app, Hq. reflexivity. }
  destruct (gethostbyname env name) as [ip|e2] eqn:Ei.
  2: { eexists; eexists; exists h. split; [reflexivity|].
       split; [reflexivity|].
       split; [|intros name' ip' [= <-] Hip; congruence].
       left. cbn [requests app]. rewrite !requests_app, Hq. reflexivity. }
  assert (forall b tr,
            requests tr = [get_request h location;
                           post_request h (text c) port_number ip] ->
            exists b' tr' h',
              Some h = Some h' /\
              Some (Returns b, tr) = Some (Returns b', tr') /\
              (requests tr' = [get_request h' location] \/
               exists rq,
                 requests tr' = [get_request h' location; rq] /\
                 method rq = lit "POST" /\ host rq = h' /\
                 url rq = text c) /\
              (forall name' ip',
                  Ok name = Ok name' ->
                  gethostbyname env name' = Ok ip' ->
                  exists rq,
                    requests tr' = [get_request h' location; rq] /\
                    method rq = lit "POST" /\ host rq = h' /\
                    url rq = text c)) as Hpost.
  { intros b tr Hrq. exists b, tr, h.
    split; [reflexivity|]. split; [reflexivity|].
    split; [right|intros name' ip' _ _];
      (exists (post_request h (text c) port_number ip);
       split; [exact Hrq|]; repeat split; reflexivity). }
  destruct (conn_request env _);
    [apply Hpost; cbn [requests app]; rewrite !requests_app, Hq;
     reflexivity|].
  destruct (getresponse env (post_request h (text c) port_number ip))
    as [resp|];
    [|apply Hpost; cbn [requests app]; rewrite !requests_app, Hq;
      reflexivity].
  destruct (status resp =? 200)%Z; apply Hpost; cbn [requests app];
    rewrite !requests_app, Hq; reflexivity.
Qed.

Lemma first_wanip_control_url_witness :
  for_service (findall "service" (Demo.device [Demo.layer3; Demo.ipconn]))
  = Some (Val (Some (lit "/ctl/IPConn")), []) /\
  exists b tr h,
    nth_error (split slash Demo.location) 2 = Some h /\
    open_upnp_port 5 (Demo.gateway 200) 1234 = Some (Returns b, tr) /\
    (requests tr = [get_request h Demo.location] \/
     exists rq,
       requests tr = [get_request h Demo.location; rq] /\
       method rq = lit "POST" /\ host rq = h /\
       url rq = Some (lit "/ctl/IPConn")) /\
    (forall name ip,
        gethostname (Demo.gateway 200) = Ok name ->
        gethostbyname (Demo.gateway 200) name = Ok ip ->
        exists rq,
          requests tr = [get_request h Demo.location; rq] /\
          method rq = lit "POST" /\ host rq = h /\
          url rq = Some (lit "/ctl/IPConn")).
Proof.
  refine (@first_wanip_control_url 5 (Demo.gateway 200) 1234
            Demo.location (Demo.device [Demo.layer3; Demo.ipconn]) _ _
            [Demo.layer3] [] Demo.ipconn
            (Demo.leaf "controlURL" "/ctl/IPConn")
            (lit "urn:schemas-upnp-org:service:WANIPConnection")
            _ _ _ _ _ _ _).
  - vm_compute. reflexivity.
  - vm_compute. reflexivity.
  - vm_compute. reflexivity.
  - repeat constructor.
  - vm_compute. reflexivity.
  - vm_compute. reflexivity.
  - vm_compute. reflexivity.
Defined.

(** C6.  On a description with no service whose [serviceType] text ends
    with [WANIPConnection], [open_upnp_port] returns [False] and the GET
    is its only request: no POST is made.  When moreover every service
    element carries a [serviceType] text, the walk ends in the [else] of
    the loop, where the missing service is logged. *)
Theorem no_wanip_service_fails (fuel : nat) (env : Env) (port_number : Z)
    (location : str) (root : element) (t1 t2 : trace) :
  discover fuel env = Some (Val location, t1) ->
  fetch_description env location = Some (Val root, t2) ->
  Forall (fun x => is_wanip x = false) (findall "service" root) ->
  (exists t h,
      open_upnp_port fuel env port_number = Some (Returns false, t) /\
      requests t = [get_request h location]) /\
  (Forall (fun x => is_other x = true) (findall "service" root) ->
   for_service (findall "service" root)
   = Some (Return false, [Log NoWANIPConnection]) /\
   exists t,
     open_upnp_port fuel env port_number = Some (Returns false, t) /\
     logs t = Attempting port_number :: logs t1 ++ [NoWANIPConnection]).
Proof.
  intros Hd Hf Hno. split.
  - destruct (for_service_no_match Hno) as [Hw|Hw];
      destruct (@open_walk_fails fuel env port_number _ _ _ _ _ _ Hd Hf Hw
                  ltac:(discriminate))
        as (t & h & Ho & _ & Hrq & _); now exists t, h.
  - intros Hall. pose proof (for_service_none Hall) as Hw.
    split; [exact Hw|].
    destruct (@open_walk_fails fuel env port_number _ _ _ _ _ _ Hd Hf Hw
                ltac:(discriminate))
      as (t & h & Ho & _ & _ & Hl).
    now exists t.
Qed.

Lemma no_wanip_service_fails_witness :
  (exists t h,
      open_upnp_port 5 (Demo.described [Demo.layer3]) 1234
      = Some (Returns false, t) /\
      requests t = [get_request h Demo.location]) /\
  (Forall (fun x => is_other x = true)
     (findall "service" (Demo.device [Demo.layer3])) ->
   for_service (findall "service" (Demo.device [Demo.layer3]))
   = Some (Return false, [Log NoWANIPConnection]) /\
   exists t,
     open_upnp_port 5 (Demo.described [Demo.layer3]) 1234
     = Some (Returns false, t) /\
     logs t = Attempting 1234
              :: logs [SendTo (encode msg) (lit "239.255.255.250") 1900;
                       Log SentDiscovery; Log (FoundDevice Demo.location)]
                 ++ [NoWANIPConnection]).
Proof.
  refine (@no_wanip_service_fails 5 (Demo.described [Demo.layer3]) 1234
            Demo.location (Demo.device [Demo.layer3]) _ _ _ _ _).
  - vm_compute. reflexivity.
  - vm_compute. reflexivity.
  - repeat constructor.
Defined.

(** C10.  When a service element that comes before any matching one has
    no [serviceType] child, or the first matching one has no [controlURL]
    child, the walk raises at that element: [open_upnp_port] returns
    [False] after the GET alone, whatever service elements follow. *)
Theorem malformed_service_aborts (fuel : nat) (env : Env) (port_number : Z)
    (location : str) (root : element) (t1 t2 : trace)
    (pre post : list element) (s : element) :
  discover fuel env = Some (Val location, t1) ->
  fetch_description env location = Some (Val root, t2) ->
  findall "service" root = pre ++ s :: post ->
  Forall (fun x => is_wanip x = false) pre ->
  find "serviceType" s = None \/
  (is_wanip s = true /\ find "controlURL" s = None) ->
  for_service (findall "service" root) = Some (Raise AttributeError, []) /\
  exists t h,
    open_upnp_port fuel env port_number = Some (Returns false, t) /\
    requests t = [get_request h location] /\
    logs t = Attempting port_number
             :: logs t1 ++ [ErrorInOpening AttributeError].
Proof.
  intros Hd Hf Hall Hpre Hs.
  assert (for_service (findall "service" root)
          = Some (Raise AttributeError, [])) as Hw
    by (rewrite Hall; now apply for_service_malformed).
  split; [exact Hw|].
  destruct (@open_walk_fails fuel env port_number _ _ _ _ _ _ Hd Hf Hw
              ltac:(discriminate))
    as (t & h & Ho & _ & Hrq & Hl).
  now exists t, h.
Qed.

Lemma malformed_service_aborts_witness :
  for_service
    (findall "service" (Demo.device [Demo.layer3; Demo.broken; Demo.ipconn]))
  = Some (Raise AttributeError, []) /\
  exists t h,
    open_upnp_port 5
      (Demo.described [Demo.layer3; Demo.broken; Demo.ipconn]) 1234
    = Some (Returns false, t) /\
    requests t = [get_request h Demo.location] /\
    logs t = Attempting 1234
             :: logs [SendTo (encode msg) (lit "239.255.255.250") 1900;
                      Log SentDiscovery; Log (FoundDevice Demo.location)]
                ++ [ErrorInOpening AttributeError].
Proof.
  refine (@malformed_service_aborts 5
            (Demo.described [Demo.layer3; Demo.broken; Demo.ipconn]) 1234
            Demo.location
            (Demo.device [Demo.layer3; Demo.broken; Demo.ipconn]) _ _
            [Demo.layer3] [Demo.ipconn] Demo.broken _ _ _ _ _).
  - vm_compute. reflexivity.
  - vm_compute. reflexivity.
  - vm_compute. reflexivity.
  - repeat constructor.
  - left. vm_compute. reflexivity.
Defined.

(** C7, as the code has it.  The loop goes past every datagram that decodes
    and has no LOCATION in it.  It ends at the first receive that does not
    skip: on a timeout with [False] and the timeout logged; on a datagram
    with LOCATION in it but no match of the pattern with [False] too, this
    time through the outer handler ([AttributeError] logged, no timeout
    logged); on a datagram where the pattern matches with the location.
    No HTTP request is made in the first two cases. *)
Theorem discovery_ends_on_LOCATION (fuel : nat) (env : Env)
    (port_number : Z) (n : nat) :
  n < fuel ->
  socket_socket env = None ->
  setsockopt env = None ->
  sendto env (encode msg) (lit "239.255.255.250") 1900 = None ->
  (forall i, i < n -> skips env i = true) ->
  (recvfrom env n = Err socket_timeout ->
   exists t,
     open_upnp_port fuel env port_number = Some (Returns false, t) /\
     logs t = [Attempting port_number; SentDiscovery; DiscoveryTimedOut] /\
     requests t = []) /\
  (forall data text,
      recvfrom env n = Ok data ->
      Utf8.decode data = Some text ->
      contains (lit "LOCATION") text = true ->
      Re.search text = None ->
      exists t,
        open_upnp_port fuel env port_number = Some (Returns false, t) /\
        logs t = [Attempting port_number; SentDiscovery;
                  ErrorInOpening AttributeError] /\
        requests t = []) /\
  (forall data text location,
      recvfrom env n = Ok data ->
      Utf8.decode data = Some text ->
      contains (lit "LOCATION") text = true ->
      Re.search text = Some location ->
      discover fuel env
      = Some (Val location,
              [SendTo (encode msg) (lit "239.255.255.250") 1900;
               Log SentDiscovery; Log (FoundDevice location)])).
Proof.
  intros Hn Hsock Hopt Hsend Hskip.
  assert (discover fuel env
          = after [SendTo (encode msg) (lit "239.255.255.250") 1900;
                   Log SentDiscovery]
              (bind (loop_body env n)
                 (fun r => match r with
                           | Some location => ret location
                           | None => while_True (fuel - n - 1) env (S n)
                           end))) as Hd.
  { rewrite discover_cases, Hsock, Hopt, Hsend.
    replace fuel with (n + S (fuel - n - 1)) at 1 by lia.
    rewrite while_True_skips by exact Hskip. reflexivity. }
  rewrite open_upnp_port_staged, Hd, loop_body_cases.
  repeat split.
  - intros ->. eexists. split; [reflexivity|]. split; reflexivity.
  - intros data text -> -> -> ->.
    eexists. split; [reflexivity|]. split; reflexivity.
  - intros data text location -> -> -> ->. reflexivity.
Qed.

Lemma discovery_ends_on_LOCATION_witness :
  (recvfrom Demo.teasing 1 = Err socket_timeout ->
   exists t,
     open_upnp_port 5 Demo.teasing 1234 = Some (Returns false, t) /\
     logs t = [Attempting 1234; SentDiscovery; DiscoveryTimedOut] /\
     requests t = []) /\
  (forall data text,
      recvfrom Demo.teasing 1 = Ok data ->
      Utf8.decode data = Some text ->
      contains (lit "LOCATION") text = true ->
      Re.search text = None ->
      exists t,
        open_upnp_port 5 Demo.teasing 1234 = Some (Returns false, t) /\
        logs t = [Attempting 1234; SentDiscovery;
                  ErrorInOpening AttributeError] /\
        requests t = []) /\
  (forall data text location,
      recvfrom Demo.teasing 1 = Ok data ->
      Utf8.decode data = Some text ->
      contains (lit "LOCATION") text = true ->
      Re.search text = Some location ->
      discover 5 Demo.teasing
      = Some (Val location,
              [SendTo (encode msg) (lit "239.255.255.250") 1900;
               Log SentDiscovery; Log (FoundDevice location)])).
Proof.
  apply (@discovery_ends_on_LOCATION 5 Demo.teasing 1234 1).
  - lia.
  - reflexivity.
  - reflexivity.
  - reflexivity.
  - intros i Hi. assert (i = 0) as -> by lia. vm_compute. reflexivity.
Defined.

(** C7, as stated, fails: a datagram that has no [LOCATION:] header in it,
    only the word LOCATION inside another header name, ends the discovery
    (and the call, with [False]) although a reply with the header is the
    next datagram to come. *)
Lemma teaser_ends_discovery :
  recvfrom Demo.teasing 1 = Ok Demo.teaser /\
  (exists text,
      Utf8.decode Demo.teaser = Some text /\
      contains (lit "LOCATION:") text = false) /\
  reply_location Demo.teasing 2 = Some Demo.location /\
  while_True 3 Demo.teasing 0 = Some (Raise AttributeError, []) /\
  exists t,
    open_upnp_port 3 Demo.teasing 1234 = Some (Returns false, t) /\
    logs t = [Attempting 1234; SentDiscovery; ErrorInOpening AttributeError] /\
    requests t = [].
Proof.
  split; [reflexivity|]. split; [eexists; split; vm_compute; reflexivity|].
  split; [vm_compute; reflexivity|]. split; [vm_compute; reflexivity|].
  eexists. split; [vm_compute; reflexivity|]. split; reflexivity.
Qed.

(** C8.  Every POST a run makes carries, for the port the function was
    called with, the envelope of lines 73-87 character for character (34 is
    the double quote, 10 the line feed): [NewExternalPort] and
    [NewInternalPort] hold one and the same decimal numeral of that port,
    [NewRemoteHost] is empty, [NewProtocol] is TCP, [NewEnabled] is 1,
    [NewLeaseDuration] is 0, and the action element is [AddPortMapping] in
    the namespace of WANIPConnection:1.  The one value of its [SOAPAction]
    header is the action URN between double quotes. *)
Theorem mapping_request_envelope (fuel : nat) (env : Env) (port_number : Z)
    (o : outcome) (t : trace) (rq : request) :
  open_upnp_port_call fuel env port_number = Some (o, t) ->
  In rq (requests t) ->
  method rq = lit "POST" ->
  (forall v,
      In (lit "SOAPAction", v) (hdrs rq) <->
      v = [34%N]
          ++ lit "urn:schemas-upnp-org:service:WANIPConnection:1#AddPortMapping"
          ++ [34%N]) /\
  exists p ip,
    to_int p = Some port_number /\
    body rq
    = Some
        (lit "<?xml version=" ++ [34%N] ++ lit "1.0" ++ [34%N] ++ lit "?>"
         ++ [10%N]
         ++ lit "        <s:Envelope xmlns:s=" ++ [34%N]
         ++ lit "http://schemas.xmlsoap.org/soap/envelope/" ++ [34%N]
         ++ lit " s:encodingStyle=" ++ [34%N]
         ++ lit "http://schemas.xmlsoap.org/soap/encoding/" ++ [34%N]
         ++ lit ">" ++ [10%N]
         ++ lit "            <s:Body>" ++ [10%N]
         ++ lit "                <u:AddPortMapping xmlns:u=" ++ [34%N]
         ++ lit "urn:schemas-upnp-org:service:WANIPConnection:1" ++ [34%N]
         ++ lit ">" ++ [10%N]
         ++ lit "                    <NewRemoteHost></NewRemoteHost>" ++ [10%N]
         ++ lit "                    <NewExternalPort>" ++ p
         ++ lit "</NewExternalPort>" ++ [10%N]
         ++ lit "                    <NewProtocol>TCP</NewProtocol>" ++ [10%N]
         ++ lit "                    <NewInternalPort>" ++ p
         ++ lit "</NewInternalPort>" ++ [10%N]
         ++ lit "                    <NewInternalClient>" ++ ip
         ++ lit "</NewInternalClient>" ++ [10%N]
         ++ lit "                    <NewEnabled>1</NewEnabled>" ++ [10%N]
         ++ lit "                    <NewPortMappingDescription>UPnP Port Mapping</NewPortMappingDescription>"
         ++ [10%N]
         ++ lit "                    <NewLeaseDuration>0</NewLeaseDuration>"
         ++ [10%N]
         ++ lit "                </u:AddPortMapping>" ++ [10%N]
         ++ lit "            </s:Body>" ++ [10%N]
         ++ lit "        </s:Envelope>").
Proof.
  intros Ho Hin Hm.
  apply open_upnp_port_call_run in Ho as [->|Ho]; [destruct Hin|].
  assert (exists h control_url ip,
             rq = post_request h control_url port_number ip)
    as (h & cu & ip & ->).
  { destruct (open_upnp_port_requests _ _ _ Ho)
      as [E|[(h & l & E)|(h & l & cu & ip & E)]]; rewrite E in Hin.
    - destruct Hin.
    - destruct Hin as [<-|[]]. vm_compute in Hm. discriminate.
    - destruct Hin as [<-|[<-|[]]]; [vm_compute in Hm; discriminate|].
      now exists h, cu, ip. }
  split.
  - intros v. cbn [hdrs post_request]. rewrite headers_value. split.
    + intros [[_ ->]|[[E _]|[E _]]];
        [reflexivity|vm_compute in E; discriminate ..].
    + intros ->. left. split; reflexivity.
  - exists (of_int port_number), ip. split; [apply to_int_of_int|].
    cbn [body post_request]. f_equal. apply soap_body_text.
Qed.

Lemma mapping_request_envelope_witness :
  (forall v,
      In (lit "SOAPAction", v)
         (hdrs (post_request Demo.netloc (Some (lit "/ctl/IPConn")) 1234
                  Demo.local_ip)) <->
      v = [34%N]
          ++ lit "urn:schemas-upnp-org:service:WANIPConnection:1#AddPortMapping"
          ++ [34%N]) /\
  exists p ip,
    to_int p = Some 1234%Z /\
    body (post_request Demo.netloc (Some (lit "/ctl/IPConn")) 1234
            Demo.local_ip)
    = Some
        (lit "<?xml version=" ++ [34%N] ++ lit "1.0" ++ [34%N] ++ lit "?>"
         ++ [10%N]
         ++ lit "        <s:Envelope xmlns:s=" ++ [34%N]
         ++ lit "http://schemas.xmlsoap.org/soap/envelope/" ++ [34%N]
         ++ lit " s:encodingStyle=" ++ [34%N]
         ++ lit "http://schemas.xmlsoap.org/soap/encoding/" ++ [34%N]
         ++ lit ">" ++ [10%N]
         ++ lit "            <s:Body>" ++ [10%N]
         ++ lit "                <u:AddPortMapping xmlns:u=" ++ [34%N]
         ++ lit "urn:schemas-upnp-org:service:WANIPConnection:1" ++ [34%N]
         ++ lit ">" ++ [10%N]
         ++ lit "                    <NewRemoteHost></NewRemoteHost>" ++ [10%N]
         ++ lit "                    <NewExternalPort>" ++ p
         ++ lit "</NewExternalPort>" ++ [10%N]
         ++ lit "                    <NewProtocol>TCP</NewProtocol>" ++ [10%N]
         ++ lit "                    <NewInternalPort>" ++ p
         ++ lit "</NewInternalPort>" ++ [10%N]
         ++ lit "                    <NewInternalClient>" ++ ip
         ++ lit "</NewInternalClient>" ++ [10%N]
         ++ lit "                    <NewEnabled>1</NewEnabled>" ++ [10%N]
         ++ lit "                    <NewPortMappingDescription>UPnP Port Mapping</NewPortMappingDescription>"
         ++ [10%N]
         ++ lit "                    <NewLeaseDuration>0</NewLeaseDuration>"
         ++ [10%N]
         ++ lit "                </u:AddPortMapping>" ++ [10%N]
         ++ lit "            </s:Body>" ++ [10%N]
         ++ lit "        </s:Envelope>").
Proof.
  refine (@mapping_request_envelope 5 (Demo.gateway 200) 1234 _ _
            (post_request Demo.netloc (Some (lit "/ctl/IPConn")) 1234
               Demo.local_ip) _ _ _).
  - rewrite open_upnp_port_call_text by (apply port_has_text; reflexivity).
    vm_compute. reflexivity.
  - vm_compute. right. left. reflexivity.
  - reflexivity.
Defined.

(** ** Further properties of the code *)

(** ** More facts about the string operations *)

Section MoreStringFacts.

Lemma startswith_sound (p : str) :
  forall s, startswith p s = true -> exists rest, s = p ++ rest.
Proof.
  induction p as [|c p IH]; intros s H.
  - now exists s.
  - destruct s as [|d s]; [discriminate|]. simpl in H.
    apply andb_prop in H as [Hc Hs]. apply N.eqb_eq in Hc. subst d.
    destruct (IH _ Hs) as (rest & ->). now exists rest.
Qed.

Lemma dot_star_crlf_sound (r : str) :
  forall g,
    Re.dot_star_crlf r = Some g ->
    exists post, r = g ++ CR :: LF :: post /\ ~ In LF g.
Proof.
  induction r as [|c r IH]; intros g H; [discriminate|].
  cbn [Re.dot_star_crlf] in H.
  destruct (N.eqb_spec c LF) as [|Hc]; [discriminate|].
  destruct (Re.dot_star_crlf r) as [g'|].
  - injection H as <-. destruct (IH _ eq_refl) as (post & -> & Hg).
    exists post. split; [reflexivity|].
    intros [E|E]; [now apply Hc|tauto].
  - destruct (startswith [CR; LF] (c :: r)) eqn:Es; [|discriminate].
    injection H as <-. destruct (startswith_sound _ _ Es) as (post & ->).
    exists post. split; [reflexivity|]. intros [].
Qed.

Lemma search_sound (s : str) :
  forall g,
    Re.search s = Some g ->
    exists pre post,
      s = pre ++ Re.LOCATION_colon ++ g ++ CR :: LF :: post /\ ~ In LF g.
Proof.
  induction s as [|c s IH]; intros g H.
  - discriminate.
  - rewrite search_unfold in H. unfold Re.match_here in H.
    destruct (startswith Re.LOCATION_colon (c :: s)) eqn:Ep.
    + destruct (startswith_sound _ _ Ep) as (rest & Erest).
      rewrite Erest, skipn_app, skipn_all, Nat.sub_diag in H. simpl skipn in H.
      rewrite app_nil_l in H.
      destruct (Re.dot_star_crlf rest) as [g'|] eqn:Ed.
      * injection H as <-.
        destruct (dot_star_crlf_sound _ Ed) as (post & -> & Hg).
        exists [], post. now rewrite Erest.
      * destruct (IH _ H) as (pre & post & -> & Hg).
        now exists (c :: pre), post.
    + destruct (IH _ H) as (pre & post & -> & Hg).
      now exists (c :: pre), post.
Qed.

Lemma split_without (sep : char) (a : str) :
  ~ In sep a -> split sep a = [a].
Proof.
  induction a as [|c a IH]; intros H; [reflexivity|]. simpl.
  destruct (N.eqb_spec c sep) as [->|_]; [exfalso; apply H; now left|].
  rewrite IH; [reflexivity|]. intros Hin. apply H. now right.
Qed.

Lemma split_app (sep : char) (a s : str) :
  ~ In sep a -> split sep (a ++ sep :: s) = a :: split sep s.
Proof.
  induction a as [|c a IH]; intros H.
  - simpl. now rewrite N.eqb_refl.
  - simpl. destruct (N.eqb_spec c sep) as [->|_];
      [exfalso; apply H; now left|].
    rewrite IH; [reflexivity|]. intros Hin. apply H. now right.
Qed.

Lemma split_not_nil (sep : char) (s : str) : split sep s <> [].
Proof.
  induction s as [|c s IH]; simpl; [discriminate|].
  destruct (N.eqb c sep); [discriminate|].
  destruct (split sep s); [contradiction|discriminate].
Qed.

(** Joining the pieces with the separator gives the text back. *)
Lemma join_split (sep : char) (s : str) : join [sep] (split sep s) = s.
Proof.
  induction s as [|c s IH]; [reflexivity|]. simpl split.
  destruct (N.eqb_spec c sep) as [->|_].
  - pose proof (split_not_nil sep s) as Hn.
    destruct (split sep s) as [|w ws]; [contradiction|].
    change (join [sep] ([] :: w :: ws)) with (sep :: join [sep] (w :: ws)).
    now rewrite IH.
  - pose proof (split_not_nil sep s) as Hn.
    destruct (split sep s) as [|w ws]; [contradiction|].
    destruct ws as [|w' ws]; [simpl in *; now subst|].
    rewrite <- IH. reflexivity.
Qed.

(** One piece more than there are separators. *)
Lemma split_length (sep : char) (s : str) :
  length (split sep s) = S (count_occ N.eq_dec s sep).
Proof.
  induction s as [|c s IH]; [reflexivity|]. simpl split.
  destruct (N.eqb_spec c sep) as [->|Hc].
  - rewrite count_occ_cons_eq by reflexivity. simpl. now rewrite IH.
  - rewrite count_occ_cons_neq by exact Hc.
    pose proof (split_not_nil sep s) as Hn.
    destruct (split sep s) as [|w ws]; [contradiction|]. exact IH.
Qed.

End MoreStringFacts.

(** ** More facts about the stages *)

Section MoreStages.

Variable env : Env.

Lemma datagrams_app (t1 t2 : trace) :
  datagrams (t1 ++ t2) = datagrams t1 ++ datagrams t2.
Proof.
  induction t1 as [|[r|d a p|rq] t1 IH]; simpl; now rewrite ?IH.
Qed.

(** A loop that breaks did so at a receive that gave its location, after
    receives that all skipped. *)
Lemma while_True_Val_inv (fuel : nat) :
  forall k location t,
    while_True fuel env k = Some (Val location, t) ->
    t = [Log (FoundDevice location)] /\
    exists n,
      k <= n < k + fuel /\
      (forall i, k <= i < n -> skips env i = true) /\
      reply_location env n = Some location.
Proof.
  induction fuel as [|fuel IH]; intros k location t; [discriminate|].
  simpl. rewrite loop_body_cases. unfold skips, reply_location in *.
  destruct (recvfrom env k) as [data|e] eqn:Er.
  - destruct (Utf8.decode data) as [text|] eqn:Ed; [|discriminate].
    destruct (contains (lit "LOCATION") text) eqn:Ec.
    + destruct (Re.search text) as [l|] eqn:Es; [|discriminate].
      simpl. intros [= <- <-]. split; [reflexivity|].
      exists k. split; [lia|]. split; [intros; lia|].
      now rewrite Er, Ed, Ec.
    + simpl. rewrite after_nil. intros H.
      destruct (IH _ _ _ H) as (-> & n & Hn & Hskip & Hloc).
      split; [reflexivity|]. exists n. split; [lia|]. split; [|exact Hloc].
      intros i Hi. destruct (Nat.eq_dec i k) as [->|Hik].
      * now rewrite Er, Ed, Ec.
      * apply Hskip. lia.
  - destruct (is_socket_timeout e); discriminate.
Qed.

(** The events of the loop never include a datagram sent. *)
Lemma while_True_datagrams (fuel : nat) :
  forall k r t, while_True fuel env k = Some (r, t) -> datagrams t = [].
Proof.
  induction fuel as [|fuel IH]; intros k r t; [discriminate|].
  simpl. rewrite loop_body_cases.
  destruct (recvfrom env k) as [data|e].
  - destruct (Utf8.decode data) as [text|].
    + destruct (contains (lit "LOCATION") text).
      * destruct (Re.search text); simpl; now intros [= <- <-].
      * simpl. rewrite after_nil. apply IH.
    + simpl. now intros [= <- <-].
  - destruct (is_socket_timeout e); simpl; now intros [= <- <-].
Qed.

Lemma discover_Val_inv (fuel : nat) (location : str) (t : trace) :
  discover fuel env = Some (Val location, t) ->
  socket_socket env = None /\
  setsockopt env = None /\
  sendto env (encode msg) (lit "239.255.255.250") 1900 = None /\
  t = [SendTo (encode msg) (lit "239.255.255.250") 1900;
       Log SentDiscovery; Log (FoundDevice location)] /\
  exists n,
    n < fuel /\
    (forall i, i < n -> skips env i = true) /\
    reply_location env n = Some location.
Proof.
  rewrite discover_cases.
  destruct (socket_socket env); [discriminate|].
  destruct (setsockopt env); [discriminate|].
  destruct (sendto env _ _ _); [discriminate|].
  destruct (while_True fuel env 0) as [[r t0]|] eqn:E; [|discriminate].
  simpl. intros [= -> <-].
  destruct (while_True_Val_inv _ _ E) as (-> & n & Hn & Hskip & Hloc).
  repeat split; try reflexivity.
  exists n. split; [lia|]. split; [|exact Hloc].
  intros i Hi. apply Hskip. lia.
Qed.

(** At most the M-SEARCH is sent, and a discovery that found a location
    did send it. *)
Lemma discover_datagrams (fuel : nat) r t :
  discover fuel env = Some (r, t) ->
  (datagrams t = [] /\ forall location, r <> Val location) \/
  datagrams t = [(encode msg, lit "239.255.255.250", 1900%Z)].
Proof.
  rewrite discover_cases.
  destruct (socket_socket env);
    [intros [= <- <-]; left; split; [reflexivity|discriminate]|].
  destruct (setsockopt env);
    [intros [= <- <-]; left; split; [reflexivity|discriminate]|].
  destruct (sendto env _ _ _); [intros [= <- <-]; now right|].
  destruct (while_True fuel env 0) as [[r0 t0]|] eqn:E; [|discriminate].
  simpl. intros [= <- <-]. right. cbn [datagrams].
  now rewrite (while_True_datagrams _ _ E).
Qed.

(** The fetch, call by call. *)
Lemma fetch_description_cases (location : str) :
  fetch_description env location =
  match nth_error (split slash location) 2 with
  | None => Some (Raise IndexError, [])
  | Some h =>
      match HTTPConnection env h with
      | Some e => Some (Raise e, [])
      | None =>
          Some
            (match conn_request env (get_request h location) with
             | Some e => Raise e
             | None =>
                 match getresponse env (get_request h location) with
                 | Err e => Raise e
                 | Ok response =>
                     match read response with
                     | Err e => Raise e
                     | Ok data =>
                         match fromstring env data with
                         | Err e => Raise e
                         | Ok root => Val root
                         end
                     end
                 end
             end,
             [Request (get_request h location)])
      end
  end.
Proof.
  unfold fetch_description, netloc.
  destruct (nth_error (split slash location) 2) as [h|]; [|reflexivity].
  unfold_py. destruct (HTTPConnection env h); [reflexivity|]. unfold_py.
  destruct (conn_request env _); [reflexivity|]. unfold_py.
  destruct (getresponse env _) as [response|]; [|reflexivity]. unfold_py.
  destruct (read response) as [data|]; [|reflexivity]. unfold_py.
  destruct (fromstring env data); reflexivity.
Qed.

Lemma add_port_mapping_datagrams (port_number : Z) (location : str)
    (control_url : option str) r t :
  add_port_mapping env port_number location control_url = Some (r, t) ->
  datagrams t = [].
Proof.
  rewrite add_port_mapping_cases. cbv zeta.
  destruct (nth_error _ 2) as [h|]; [|now intros [= <- <-]].
  destruct (HTTPConnection env h); [now intros [= <- <-]|].
  destruct (gethostname env) as [name|]; [|now intros [= <- <-]].
  destruct (gethostbyname env name) as [ip|]; [|now intros [= <- <-]].
  destruct (conn_request env _); [now intros [= <- <-]|].
  destruct (getresponse env _) as [response|]; [|now intros [= <- <-]].
  destruct (status response =? 200)%Z; now intros [= <- <-].
Qed.

End MoreStages.

(** ** Properties beyond the claims *)

(** X1.  Whatever location the discovery returns was read from a received
    datagram: in the decoded text it stands between the text [LOCATION: ]
    and a CR LF, and it has no line feed in it. *)
Theorem discovered_location_is_a_header_value (fuel : nat) (env : Env)
    (location : str) (t : trace) :
  discover fuel env = Some (Val location, t) ->
  exists n data pre post,
    n < fuel /\
    recvfrom env n = Ok data /\
    Utf8.decode data
    = Some (pre ++ Re.LOCATION_colon ++ location ++ CR :: LF :: post) /\
    ~ In LF location.
Proof.
  intros Hd.
  destruct (discover_Val_inv _ _ Hd) as (_ & _ & _ & _ & n & Hn & _ & Hloc).
  unfold reply_location in Hloc.
  destruct (recvfrom env n) as [data|] eqn:Er; [|discriminate].
  destruct (Utf8.decode data) as [text|] eqn:Ed; [|discriminate].
  destruct (contains (lit "LOCATION") text); [|discriminate].
  destruct (search_sound _ Hloc) as (pre & post & -> & Hlf).
  now exists n, data, pre, post.
Qed.

Lemma discovered_location_is_a_header_value_witness :
  exists n data pre post,
    n < 5 /\
    recvfrom (Demo.gateway 200) n = Ok data /\
    Utf8.decode data
    = Some (pre ++ Re.LOCATION_colon ++ Demo.location ++ CR :: LF :: post) /\
    ~ In LF Demo.location.
Proof.
  refine (@discovered_location_is_a_header_value 5 (Demo.gateway 200)
            Demo.location _ _).
  vm_compute. reflexivity.
Defined.

(** X2.  For a location of the form [a/b/h] followed by nothing or by
    [/rest], with no slash in [a], [b] and [h] (as in [http://h/rest]), the
    description is asked of host [h] with a GET for [/rest] (for [/] when
    nothing follows), without body or headers; that request is the only
    event of the fetch once the connection object exists. *)
Theorem description_is_fetched_from_location (env : Env)
    (a b h tail location : str) :
  ~ In slash a -> ~ In slash b -> ~ In slash h ->
  tail = [] \/ hd_error tail = Some slash ->
  location = a ++ slash :: b ++ slash :: h ++ tail ->
  nth_error (split slash location) 2 = Some h /\
  get_request h location
  = {| method := lit "GET"; host := h; url := Some (slash :: tl tail);
       body := None; hdrs := [] |} /\
  (HTTPConnection env h = None ->
   exists r,
     fetch_description env location
     = Some (r, [Request {| method := lit "GET"; host := h;
                            url := Some (slash :: tl tail);
                            body := None; hdrs := [] |}])).
Proof.
  intros Ha Hb Hh Htail ->.
  assert (split slash (a ++ slash :: b ++ slash :: h ++ tail)
          = a :: b :: h :: match tail with
                           | [] => []
                           | _ :: rest => split slash rest
                           end) as Hsplit.
  { rewrite (@split_app slash a _ Ha), (@split_app slash b _ Hb).
    destruct Htail as [->|Htail].
    - now rewrite app_nil_r, (@split_without slash h Hh).
    - destruct tail as [|c rest]; [discriminate|]. injection Htail as ->.
      now rewrite (@split_app slash h _ Hh). }
  assert (get_request h (a ++ slash :: b ++ slash :: h ++ tail)
          = {| method := lit "GET"; host := h; url := Some (slash :: tl tail);
               body := None; hdrs := [] |}) as Hrq.
  { unfold get_request. rewrite Hsplit. cbn [skipn app].
    destruct tail as [|c rest]; [reflexivity|].
    cbn [tl]. now rewrite join_split. }
  split; [now rewrite Hsplit|]. split; [exact Hrq|].
  intros Hc. rewrite fetch_description_cases, Hsplit. cbn [nth_error].
  rewrite Hc, Hrq. eexists. reflexivity.
Qed.

Lemma description_is_fetched_from_location_witness :
  nth_error (split slash Demo.location) 2 = Some Demo.netloc /\
  get_request Demo.netloc Demo.location
  = {| method := lit "GET"; host := Demo.netloc;
       url := Some (slash :: tl (lit "/desc.xml"));
       body := None; hdrs := [] |} /\
  (HTTPConnection (Demo.gateway 200) Demo.netloc = None ->
   exists r,
     fetch_description (Demo.gateway 200) Demo.location
     = Some (r, [Request {| method := lit "GET"; host := Demo.netloc;
                            url := Some (slash :: tl (lit "/desc.xml"));
                            body := None; hdrs := [] |}])).
Proof.
  refine (@description_is_fetched_from_location (Demo.gateway 200)
            (lit "http:") [] Demo.netloc (lit "/desc.xml") Demo.location
            _ _ _ _ _).
  - vm_compute. intuition discriminate.
  - intros [].
  - vm_compute. intuition discriminate.
  - right. reflexivity.
  - reflexivity.
Defined.

(** X3.  A discovered location with fewer than two slashes in it has no
    third piece: line 54 raises [IndexError], and the call returns [False]
    without any HTTP request. *)
Theorem location_without_host_fails (fuel : nat) (env : Env)
    (port_number : Z) (location : str) (t1 : trace) :
  discover fuel env = Some (Val location, t1) ->
  count_occ N.eq_dec location slash < 2 ->
  exists t,
    open_upnp_port fuel env port_number = Some (Returns false, t) /\
    requests t = [] /\
    logs t = Attempting port_number
             :: logs t1 ++ [ErrorInOpening IndexError].
Proof.
  intros Hd Hc.
  assert (nth_error (split slash location) 2 = None) as Hn
    by (apply nth_error_None; rewrite split_length; lia).
  rewrite open_upnp_port_staged, Hd, fetch_description_cases, Hn.
  destruct (discover_quiet _ _ Hd) as [Hq _].
  eexists. split; [reflexivity|].
  cbn [requests logs]. rewrite !requests_app, !logs_app, Hq.
  cbn [requests logs app]. rewrite app_nil_r. now split.
Qed.

Lemma location_without_host_fails_witness :
  exists t,
    open_upnp_port 5 DemoMore.relative 1234 = Some (Returns false, t) /\
    requests t = [] /\
    logs t = Attempting 1234
             :: logs [SendTo (encode msg) (lit "239.255.255.250") 1900;
                      Log SentDiscovery; Log (FoundDevice (lit "desc.xml"))]
                ++ [ErrorInOpening IndexError].
Proof.
  refine (@location_without_host_fails 5 DemoMore.relative 1234
            (lit "desc.xml") _ _ _).
  - vm_compute. reflexivity.
  - vm_compute. lia.
Defined.

(** X4.  A control URL that the walk returns is the [controlURL] text of a
    service whose [serviceType] text ends with [WANIPConnection], and every
    service element before that one has a [serviceType] text that does not
    end so: it is the first match, never a later one. *)
Theorem chosen_control_url_is_first_match (services : list element)
    (control_url : option str) (t : trace) :
  for_service services = Some (Val control_url, t) ->
  exists pre s post c,
    services = pre ++ s :: post /\
    Forall (fun x => is_other x = true) pre /\
    is_wanip s = true /\
    find "controlURL" s = Some c /\
    control_url = text c.
Proof.
  induction services as [|x rest IH]; [discriminate|].
  rewrite for_service_cons.
  destruct (service_type x) as [tx|] eqn:Et; [|discriminate].
  destruct (endswith WANIPConnection tx) eqn:Ee.
  - destruct (find "controlURL" x) as [c|] eqn:Ec; [|discriminate].
    intros [= <- <-]. exists [], x, rest, c.
    split; [reflexivity|]. split; [constructor|].
    split; [unfold is_wanip; now rewrite Et|]. now split.
  - intros H. destruct (IH H) as (pre & s & post & c & -> & Hpre & Hs).
    exists (x :: pre), s, post, c. split; [reflexivity|].
    split; [|exact Hs]. constructor; [|exact Hpre].
    unfold is_other. now rewrite Et, Ee.
Qed.

Lemma chosen_control_url_is_first_match_witness :
  exists pre s post c,
    [Demo.layer3; Demo.ipconn; Demo.ipconn] = pre ++ s :: post /\
    Forall (fun x => is_other x = true) pre /\
    is_wanip s = true /\
    find "controlURL" s = Some c /\
    Some (lit "/ctl/IPConn") = text c.
Proof.
  refine (@chosen_control_url_is_first_match
            [Demo.layer3; Demo.ipconn; Demo.ipconn]
            (Some (lit "/ctl/IPConn")) [] _).
  vm_compute. reflexivity.
Defined.

Section Reaching.

Variables (fuel : nat) (env : Env) (n : nat).
Hypothesis enough : n < fuel.
Hypothesis socket_ok : socket_socket env = None.
Hypothesis option_ok : setsockopt env = None.
Hypothesis sendto_ok :
  sendto env (encode msg) (lit "239.255.255.250") 1900 = None.
Hypothesis skipped : forall i, i < n -> skips env i = true.

(** With the socket set up and the first [n] receives skipping, the
    discovery is decided by the [n]-th receive. *)
Lemma discover_reaches :
  discover fuel env
  = after [SendTo (encode msg) (lit "239.255.255.250") 1900;
           Log SentDiscovery]
      (bind (loop_body env n)
         (fun r => match r with
                   | Some location => ret location
                   | None => while_True (fuel - n - 1) env (S n)
                   end)).
Proof.
  rewrite discover_cases, socket_ok, option_ok, sendto_ok.
  replace fuel with (n + S (fuel - n - 1)) at 1 by lia.
  rewrite while_True_skips by exact skipped. reflexivity.
Qed.

End Reaching.

(** X5.  A run sends at most one datagram, the M-SEARCH of lines 30-39 to
    239.255.255.250:1900, however many receives follow; and a run that
    sent none made no HTTP request either. *)
Theorem one_search_datagram (fuel : nat) (env : Env) (port_number : Z)
    (o : outcome) (t : trace) :
  open_upnp_port fuel env port_number = Some (o, t) ->
  (datagrams t = [] /\ requests t = []) \/
  datagrams t = [(encode msg, lit "239.255.255.250", 1900%Z)].
Proof.
  rewrite open_upnp_port_staged.
  destruct (discover fuel env) as [[r1 t1]|] eqn:Hd; [|discriminate].
  destruct (discover_quiet _ _ Hd) as [Hq _].
  destruct (discover_datagrams _ _ Hd) as [[H1 Hr]|H1].
  { destruct r1 as [location|b|e]; [now elim (Hr location)| |];
      intros [= <- <-]; left; cbn [datagrams requests];
      rewrite ?datagrams_app, ?requests_app, H1, Hq; now split. }
  destruct r1 as [location|b|e];
    [|intros [= <- <-]; right; cbn [datagrams];
      rewrite ?datagrams_app, H1; reflexivity ..].
  destruct (fetch_description env location) as [[r2 t2]|] eqn:Hf;
    [|discriminate].
  assert (datagrams t2 = []) as H2
    by (destruct (fetch_description_shape _ _ Hf)
          as [(-> & _)|(h & _ & _ & -> & _)]; reflexivity).
  destruct r2 as [root|b|e];
    [|intros [= <- <-]; right; cbn [datagrams];
      rewrite ?datagrams_app, H1, H2; reflexivity ..].
  destruct (for_service (findall "service" root)) as [[r3 t3]|] eqn:Hw;
    [|discriminate].
  assert (datagrams t3 = []) as H3
    by (destruct (for_service_shape (findall "service" root))
          as [(cu & E)|[E|E]]; rewrite E in Hw; now injection Hw as <- <-).
  destruct r3 as [control_url|b|e];
    [|intros [= <- <-]; right; cbn [datagrams];
      rewrite ?datagrams_app, H1, H2, H3; reflexivity ..].
  destruct (add_port_mapping env port_number location control_url)
    as [[r4 t4]|] eqn:Ha; [|discriminate].
  pose proof (add_port_mapping_datagrams _ _ _ _ Ha) as H4.
  destruct r4 as [v|b|e]; [destruct v| |];
    intros [= <- <-]; right; cbn [datagrams];
    rewrite ?datagrams_app; cbn [datagrams];
    rewrite H1, H2, H3, H4; reflexivity.
Qed.

Lemma one_search_datagram_witness :
  (datagrams
     [Log (Attempting 1234);
      SendTo (encode msg) (lit "239.255.255.250") 1900;
      Log SentDiscovery; Log DiscoveryTimedOut] = [] /\
   requests
     [Log (Attempting 1234);
      SendTo (encode msg) (lit "239.255.255.250") 1900;
      Log SentDiscovery; Log DiscoveryTimedOut] = []) \/
  datagrams
    [Log (Attempting 1234);
     SendTo (encode msg) (lit "239.255.255.250") 1900;
     Log SentDiscovery; Log DiscoveryTimedOut]
  = [(encode msg, lit "239.255.255.250", 1900%Z)].
Proof.
  refine (@one_search_datagram 5 Demo.silent 1234 (Returns false) _ _).
  vm_compute. reflexivity.
Defined.

(** X7.  [open_upnp_port] returns [True] only at the end of one complete
    run: the M-SEARCH, a location found, the GET, a control URL found, the
    POST answered with status 200, and nothing else; no error is logged on
    the way. *)
Theorem true_means_mapping_accepted (fuel : nat) (env : Env)
    (port_number : Z) (t : trace) :
  open_upnp_port fuel env port_number = Some (Returns true, t) ->
  exists location h control_url ip resp,
    t = [Log (Attempting port_number);
         SendTo (encode msg) (lit "239.255.255.250") 1900;
         Log SentDiscovery;
         Log (FoundDevice location);
         Request (get_request h location);
         Log (FoundControlURL control_url);
         Request (post_request h control_url port_number ip);
         Log (Opened port_number)] /\
    getresponse env (post_request h control_url port_number ip) = Ok resp /\
    status resp = 200%Z.
Proof.
  rewrite open_upnp_port_staged.
  destruct (discover fuel env) as [[r1 t1]|] eqn:Hd; [|discriminate].
  destruct r1 as [location|b|e]; [| |discriminate].
  2:{ destruct (discover_quiet _ _ Hd) as [_ Hb].
      rewrite (Hb b eq_refl). discriminate. }
  destruct (discover_Val_inv _ _ Hd) as (_ & _ & _ & -> & _).
  rewrite fetch_description_cases.
  destruct (nth_error (split slash location) 2) as [h|] eqn:Eh;
    [|discriminate].
  destruct (HTTPConnection env h) eqn:Ec; [discriminate|].
  destruct (conn_request env (get_request h location)); [discriminate|].
  destruct (getresponse env (get_request h location)) as [r|];
    [|discriminate].
  destruct (read r) as [data|]; [|discriminate].
  destruct (fromstring env data) as [root|]; [|discriminate].
  destruct (for_service_shape (findall "service" root))
    as [(cu & ->)|[->| ->]]; [|discriminate ..].
  rewrite add_port_mapping_cases, Eh, Ec. cbv zeta.
  destruct (gethostname env) as [name|]; [|discriminate].
  destruct (gethostbyname env name) as [ip|]; [|discriminate].
  destruct (conn_request env _); [discriminate|].
  destruct (getresponse env (post_request h cu port_number ip))
    as [resp|] eqn:Er; [|discriminate].
  destruct (status resp =? 200)%Z eqn:Es; [|discriminate].
  intros [= <-]. exists location, h, cu, ip, resp.
  split; [reflexivity|]. split; [exact Er|]. now apply Z.eqb_eq.
Qed.

Lemma true_means_mapping_accepted_witness :
  exists location h control_url ip resp,
    [Log (Attempting 1234);
     SendTo (encode msg) (lit "239.255.255.250") 1900;
     Log SentDiscovery;
     Log (FoundDevice Demo.location);
     Request (get_request Demo.netloc Demo.location);
     Log (FoundControlURL (Some (lit "/ctl/IPConn")));
     Request (post_request Demo.netloc (Some (lit "/ctl/IPConn")) 1234
                Demo.local_ip);
     Log (Opened 1234)]
    = [Log (Attempting 1234);
       SendTo (encode msg) (lit "239.255.255.250") 1900;
       Log SentDiscovery;
       Log (FoundDevice location);
       Request (get_request h location);
       Log (FoundControlURL control_url);
       Request (post_request h control_url 1234 ip);
       Log (Opened 1234)] /\
    getresponse (Demo.gateway 200) (post_request h control_url 1234 ip)
    = Ok resp /\
    status resp = 200%Z.
Proof.
  refine (@true_means_mapping_accepted 5 (Demo.gateway 200) 1234 _ _).
  vm_compute. reflexivity.
Defined.

(** X8.  When every call succeeds, a receive gives a location, the body of
    the description parses, the walk finds a control URL and the POST is
    answered with 200, [open_upnp_port] returns [True]: the status of the
    answer to the GET plays no part, a description served with an error
    status is used like any other. *)
Theorem description_status_is_not_checked (fuel : nat) (env : Env)
    (port_number : Z) (n : nat) (location h : str) (r1 r2 : response)
    (data : Utf8.bytes) (root : element) (control_url : option str)
    (name ip : str) :
  n < fuel ->
  socket_socket env = None ->
  setsockopt env = None ->
  sendto env (encode msg) (lit "239.255.255.250") 1900 = None ->
  (forall i, i < n -> skips env i = true) ->
  reply_location env n = Some location ->
  nth_error (split slash location) 2 = Some h ->
  HTTPConnection env h = None ->
  conn_request env (get_request h location) = None ->
  getresponse env (get_request h location) = Ok r1 ->
  read r1 = Ok data ->
  fromstring env data = Ok root ->
  for_service (findall "service" root) = Some (Val control_url, []) ->
  gethostname env = Ok name ->
  gethostbyname env name = Ok ip ->
  conn_request env (post_request h control_url port_number ip) = None ->
  getresponse env (post_request h control_url port_number ip) = Ok r2 ->
  status r2 = 200%Z ->
  open_upnp_port fuel env port_number
  = Some (Returns true,
          [Log (Attempting port_number);
           SendTo (encode msg) (lit "239.255.255.250") 1900;
           Log SentDiscovery;
           Log (FoundDevice location);
           Request (get_request h location);
           Log (FoundControlURL control_url);
           Request (post_request h control_url port_number ip);
           Log (Opened port_number)]).
Proof.
  intros Hn Hsock Hopt Hsend Hskip Hloc Hh Hc Hget Hr1 Hread Hroot Hw
    Hname Hip Hpost Hr2 Hst.
  assert (discover fuel env
          = Some (Val location,
                  [SendTo (encode msg) (lit "239.255.255.250") 1900;
                   Log SentDiscovery; Log (FoundDevice location)])) as Hd.
  { rewrite discover_cases, Hsock, Hopt, Hsend.
    replace fuel with (n + S (fuel - n - 1)) by lia.
    rewrite while_True_skips by exact Hskip.
    now rewrite (while_True_found _ _ _ Hloc). }
  rewrite open_upnp_port_staged, Hd, fetch_description_cases, Hh, Hc, Hget,
    Hr1, Hread, Hroot, Hw, add_port_mapping_cases, Hh, Hc, Hname, Hip.
  cbv zeta. rewrite Hpost, Hr2, Hst. reflexivity.
Qed.

Lemma description_status_is_not_checked_witness :
  open_upnp_port 5 DemoMore.not_found 1234
  = Some (Returns true,
          [Log (Attempting 1234);
           SendTo (encode msg) (lit "239.255.255.250") 1900;
           Log SentDiscovery;
           Log (FoundDevice Demo.location);
           Request (get_request Demo.netloc Demo.location);
           Log (FoundControlURL (Some (lit "/ctl/IPConn")));
           Request (post_request Demo.netloc (Some (lit "/ctl/IPConn")) 1234
                      Demo.local_ip);
           Log (Opened 1234)]).
Proof.
  refine (@description_status_is_not_checked 5 DemoMore.not_found 1234 0
            Demo.location Demo.netloc
            {| status := 404; read := Ok Demo.page |}
            {| status := 200; read := Ok Demo.page |}
            Demo.page (Demo.device [Demo.ipconn])
            (Some (lit "/ctl/IPConn")) (lit "host") Demo.local_ip
            _ _ _ _ _ _ _ _ _ _ _ _ _ _ _ _ _ _);
    try (vm_compute; reflexivity).
  - lia.
  - intros i Hi. lia.
Defined.

(** X9.  A datagram that is not valid UTF-8, or a receive that raises
    anything but a timeout, ends the call at once with [False]: the error
    is logged by the outer handler, no HTTP request is made, and later
    datagrams are never read. *)
Theorem bad_datagram_ends_the_call (fuel : nat) (env : Env)
    (port_number : Z) (n : nat) :
  n < fuel ->
  socket_socket env = None ->
  setsockopt env = None ->
  sendto env (encode msg) (lit "239.255.255.250") 1900 = None ->
  (forall i, i < n -> skips env i = true) ->
  (forall data,
      recvfrom env n = Ok data ->
      Utf8.decode data = None ->
      exists t,
        open_upnp_port fuel env port_number = Some (Returns false, t) /\
        logs t = [Attempting port_number; SentDiscovery;
                  ErrorInOpening UnicodeDecodeError] /\
        requests t = []) /\
  (forall e,
      recvfrom env n = Err e ->
      is_socket_timeout e = false ->
      exists t,
        open_upnp_port fuel env port_number = Some (Returns false, t) /\
        logs t = [Attempting port_number; SentDiscovery; ErrorInOpening e] /\
        requests t = []).
Proof.
  intros Hn Hsock Hopt Hsend Hskip.
  rewrite open_upnp_port_staged,
    (@discover_reaches fuel env n Hn Hsock Hopt Hsend Hskip),
    loop_body_cases.
  split.
  - intros data -> ->. eexists. split; [reflexivity|]. now split.
  - intros e -> ->. eexists. split; [reflexivity|]. now split.
Qed.

Lemma bad_datagram_ends_the_call_witness :
  (forall data,
      recvfrom DemoMore.garbled 1 = Ok data ->
      Utf8.decode data = None ->
      exists t,
        open_upnp_port 5 DemoMore.garbled 1234 = Some (Returns false, t) /\
        logs t = [Attempting 1234; SentDiscovery;
                  ErrorInOpening UnicodeDecodeError] /\
        requests t = []) /\
  (forall e,
      recvfrom DemoMore.garbled 1 = Err e ->
      is_socket_timeout e = false ->
      exists t,
        open_upnp_port 5 DemoMore.garbled 1234 = Some (Returns false, t) /\
        logs t = [Attempting 1234; SentDiscovery; ErrorInOpening e] /\
        requests t = []).
Proof.
  apply (@bad_datagram_ends_the_call 5 DemoMore.garbled 1234 1).
  - lia.
  - reflexivity.
  - reflexivity.
  - reflexivity.
  - intros i Hi. assert (i = 0) as -> by lia. vm_compute. reflexivity.
Defined.

(** X6.  The POST is made only after the host's own name was resolved, and
    the address found is what the envelope gives as [NewInternalClient]:
    the text of that element with the address between its tags stands in
    the body, and so does the element with the fixed description label.
    The request carries the [Content-Type] and [Connection] headers of
    lines 91-92 (34 is the double quote). *)
Theorem mapping_names_resolved_address (fuel : nat) (env : Env)
    (port_number : Z) (o : outcome) (t : trace) (rq : request) :
  open_upnp_port_call fuel env port_number = Some (o, t) ->
  In rq (requests t) ->
  method rq = lit "POST" ->
  exists name ip b,
    gethostname env = Ok name /\
    gethostbyname env name = Ok ip /\
    body rq = Some b /\
    occurs (lit "<NewInternalClient>" ++ ip ++ lit "</NewInternalClient>")
      b /\
    occurs
      (lit "<NewPortMappingDescription>UPnP Port Mapping</NewPortMappingDescription>")
      b /\
    In (lit "Content-Type",
        lit "text/xml; charset=" ++ [34%N] ++ lit "utf-8" ++ [34%N])
       (hdrs rq) /\
    In (lit "Connection", lit "close") (hdrs rq).
Proof.
  intros Ho Hin Hm.
  apply open_upnp_port_call_run in Ho as [->|Ho]; [destruct Hin|].
  revert Ho. rewrite open_upnp_port_staged.
  destruct (discover fuel env) as [[r1 t1]|] eqn:Hd; [|discriminate].
  destruct (discover_quiet _ _ Hd) as [Hq _].
  assert (forall tail, requests (t1 ++ tail) = requests tail) as Hskip
    by (intros tail; now rewrite requests_app, Hq).
  destruct r1 as [location|b|e];
    [|intros [= <- <-]; cbn [requests] in Hin;
      rewrite ?Hskip, ?Hq in Hin; destruct Hin ..].
  rewrite fetch_description_cases.
  destruct (nth_error (split slash location) 2) as [h|] eqn:Eh;
    [|intros [= <- <-]; cbn [requests] in Hin;
      rewrite <- app_assoc, Hskip in Hin; destruct Hin].
  destruct (HTTPConnection env h) eqn:Ec;
    [intros [= <- <-]; cbn [requests] in Hin;
     rewrite <- app_assoc, Hskip in Hin; destruct Hin|].
  assert (rq <> get_request h location) as Hget
    by (intros ->; vm_compute in Hm; discriminate).
  destruct (conn_request env (get_request h location));
    [intros [= <- <-]; cbn [requests] in Hin;
     rewrite <- app_assoc, Hskip in Hin;
     destruct Hin as [<-|[]]; now elim Hget|].
  destruct (getresponse env (get_request h location)) as [r|];
    [|intros [= <- <-]; cbn [requests] in Hin;
      rewrite <- app_assoc, Hskip in Hin;
      destruct Hin as [<-|[]]; now elim Hget].
  destruct (read r) as [data|];
    [|intros [= <- <-]; cbn [requests] in Hin;
      rewrite <- app_assoc, Hskip in Hin;
      destruct Hin as [<-|[]]; now elim Hget].
  destruct (fromstring env data) as [root|];
    [|intros [= <- <-]; cbn [requests] in Hin;
      rewrite <- app_assoc, Hskip in Hin;
      destruct Hin as [<-|[]]; now elim Hget].
  destruct (for_service_shape (findall "service" root))
    as [(cu & ->)|[->| ->]];
    [|intros [= <- <-]; cbn [requests] in Hin;
      rewrite <- ?app_assoc, Hskip in Hin;
      destruct Hin as [<-|[]]; now elim Hget ..].
  rewrite add_port_mapping_cases, Eh, Ec. cbv zeta.
  destruct (gethostname env) as [name|] eqn:En;
    [|intros [= <- <-]; cbn [requests] in Hin;
      rewrite <- ?app_assoc, Hskip in Hin;
      destruct Hin as [<-|[]]; now elim Hget].
  destruct (gethostbyname env name) as [ip|] eqn:Ei;
    [|intros [= <- <-]; cbn [requests] in Hin;
      rewrite <- ?app_assoc, Hskip in Hin;
      destruct Hin as [<-|[]]; now elim Hget].
  assert (In rq [get_request h location;
                 post_request h cu port_number ip] ->
          exists name0 ip0 b,
            Ok name = Ok name0 /\
            gethostbyname env name0 = Ok ip0 /\
            body rq = Some b /\
            occurs
              (lit "<NewInternalClient>" ++ ip0 ++ lit "</NewInternalClient>")
              b /\
            occurs
              (lit "<NewPortMappingDescription>UPnP Port Mapping</NewPortMappingDescription>")
              b /\
            In (lit "Content-Type",
                lit "text/xml; charset=" ++ [34%N] ++ lit "utf-8" ++ [34%N])
               (hdrs rq) /\
            In (lit "Connection", lit "close") (hdrs rq)) as Hpost.
  { intros [<-|[<-|[]]]; [now elim Hget|].
    exists name, ip, (soap_body port_number ip).
    split; [reflexivity|]. split; [exact Ei|].
    split; [reflexivity|]. unfold soap_body.
    split; [apply occurs_concat; unfold soap_segments;
            repeat (first [left; reflexivity | right])|].
    split; [apply occurs_concat; unfold soap_segments;
            repeat (first [left; reflexivity | right])|].
    split; [right; left; reflexivity|right; right; left; reflexivity]. }
  destruct (conn_request env _);
    [intros [= <- <-]; cbn [requests] in Hin;
     rewrite <- ?app_assoc, Hskip in Hin; now apply Hpost|].
  destruct (getresponse env (post_request h cu port_number ip)) as [resp|];
    [|intros [= <- <-]; cbn [requests] in Hin;
      rewrite <- ?app_assoc, Hskip in Hin; now apply Hpost].
  destruct (status resp =? 200)%Z;
    intros [= <- <-]; cbn [requests] in Hin;
    rewrite <- ?app_assoc, Hskip in Hin; now apply Hpost.
Qed.

Lemma mapping_names_resolved_address_witness :
  exists name ip b,
    gethostname (Demo.gateway 200) = Ok name /\
    gethostbyname (Demo.gateway 200) name = Ok ip /\
    body (post_request Demo.netloc (Some (lit "/ctl/IPConn")) 1234
            Demo.local_ip)
    = Some b /\
    occurs (lit "<NewInternalClient>" ++ ip ++ lit "</NewInternalClient>")
      b /\
    occurs
      (lit "<NewPortMappingDescription>UPnP Port Mapping</NewPortMappingDescription>")
      b /\
    In (lit "Content-Type",
        lit "text/xml; charset=" ++ [34%N] ++ lit "utf-8" ++ [34%N])
       (hdrs (post_request Demo.netloc (Some (lit "/ctl/IPConn")) 1234
                Demo.local_ip)) /\
    In (lit "Connection", lit "close")
       (hdrs (post_request Demo.netloc (Some (lit "/ctl/IPConn")) 1234
                Demo.local_ip)).
Proof.
  refine (@mapping_names_resolved_address 5 (Demo.gateway 200) 1234 _ _
            (post_request Demo.netloc (Some (lit "/ctl/IPConn")) 1234
               Demo.local_ip) _ _ _).
  - rewrite open_upnp_port_call_text by (apply port_has_text; reflexivity).
    vm_compute. reflexivity.
  - vm_compute. right. left. reflexivity.
  - reflexivity.
Defined.

(** ** [open_nat_port], call by call *)

Ltac unfold_w :=
  cbn [wbind wtry wlib wlib_ wret wreturn wraise wemit wlog app
       is_Exception].

Ltac setup_holds ip name E :=
  exists ip; repeat split; exists name; split; [reflexivity|exact E].

Lemma open_nat_port_cases (env : LocalEnv) (port_number : Z) :
  open_nat_port env port_number =
  match socket_socket (net env) with
  | Some e =>
      (Returns false,
       [LocalLog (AttemptingLocal port_number); LocalLog (ErrorInLocal e)])
  | None =>
  match sock_bind env [] port_number with
  | Some e =>
      (Returns false,
       [LocalLog (AttemptingLocal port_number); Bind [] port_number;
        LocalLog (ErrorInLocal e)])
  | None =>
  match gethostname (net env) with
  | Err e =>
      (Returns false,
       [LocalLog (AttemptingLocal port_number); Bind [] port_number;
        LocalLog (ErrorInLocal e)])
  | Ok name =>
  match gethostbyname (net env) name with
  | Err e =>
      (Returns false,
       [LocalLog (AttemptingLocal port_number); Bind [] port_number;
        LocalLog (ErrorInLocal e)])
  | Ok local_ip =>
  match setsockopt (net env) with
  | Some e =>
      (Returns false,
       [LocalLog (AttemptingLocal port_number); Bind [] port_number;
        LocalLog (BoundTo local_ip port_number);
        LocalLog (ErrorInLocal e)])
  | None =>
  match sendto (net env) message broadcast_addr port_number with
  | Some e =>
      (Returns false,
       [LocalLog (AttemptingLocal port_number); Bind [] port_number;
        LocalLog (BoundTo local_ip port_number);
        Broadcast message broadcast_addr port_number;
        LocalLog (ErrorInLocal e)])
  | None =>
      let sent :=
        [LocalLog (AttemptingLocal port_number); Bind [] port_number;
         LocalLog (BoundTo local_ip port_number);
         Broadcast message broadcast_addr port_number;
         LocalLog (SentBroadcast local_ip port_number)] in
      match recvfrom (net env) 0 with
      | Ok data =>
          (Returns true,
           sent ++ [LocalLog (ReceivedFrom (peer env 0) data);
                    LocalLog (OpenedLocal port_number)])
      | Err e =>
          if is_socket_timeout e
          then (Returns true,
                sent ++ [LocalLog NoResponse;
                         LocalLog (OpenedLocal port_number)])
          else (Returns false, sent ++ [LocalLog (ErrorInLocal e)])
      end
  end end end end end end.
Proof.
  unfold open_nat_port, nat_try_body.
  destruct (socket_socket (net env)); [reflexivity|].
  destruct (sock_bind env [] port_number); [reflexivity|].
  destruct (gethostname (net env)) as [name|]; [|reflexivity]. unfold_w.
  destruct (gethostbyname (net env) name) as [local_ip|]; [|reflexivity].
  unfold_w.
  destruct (setsockopt (net env)); [reflexivity|].
  generalize message broadcast_addr. intros m a.
  destruct (sendto (net env) m a port_number); [reflexivity|].
  destruct (recvfrom (net env) 0) as [data|e]; [reflexivity|].
  destruct e; reflexivity.
Qed.

(** X10.  [open_nat_port] returns [True] exactly when the socket is
    created, bound to the port on every interface, the host's own name
    resolves, broadcasting is allowed and the test datagram is sent, and
    the one receive then either gives a datagram or times out: an answer
    is not needed, and what a datagram holds makes no difference. *)
Theorem open_nat_port_true_iff (env : LocalEnv) (port_number : Z) :
  fst (open_nat_port env port_number) = Returns true <->
  (exists local_ip, local_setup env port_number local_ip) /\
  (forall e, recvfrom (net env) 0 = Err e -> is_socket_timeout e = true).
Proof.
  rewrite open_nat_port_cases. unfold local_setup.
  destruct (socket_socket (net env)) eqn:E1;
    [split; [discriminate|intros [(ip & H & _) _]; discriminate]|].
  destruct (sock_bind env [] port_number) eqn:E2;
    [split; [discriminate|intros [(ip & _ & H & _) _]; discriminate]|].
  destruct (gethostname (net env)) as [name|] eqn:E3;
    [|split; [discriminate
             |intros [(ip & _ & _ & (nm & H & _) & _) _]; discriminate]].
  destruct (gethostbyname (net env) name) as [local_ip|] eqn:E4;
    [|split; [discriminate
             |intros [(ip & _ & _ & (nm & [= <-] & H) & _) _]; congruence]].
  destruct (setsockopt (net env)) eqn:E5;
    [split; [discriminate
            |intros [(ip & _ & _ & _ & H & _) _]; discriminate]|].
  destruct (sendto (net env) message broadcast_addr port_number) eqn:E6;
    [split; [discriminate
            |intros [(ip & _ & _ & _ & _ & H) _]; discriminate]|].
  cbv zeta.
  destruct (recvfrom (net env) 0) as [data|e] eqn:E7.
  - split; [intros _; split; [setup_holds local_ip name E4|discriminate]|reflexivity].
  - destruct (is_socket_timeout e) eqn:Et.
    + split; [intros _; split; [setup_holds local_ip name E4|now intros e' [= <-]]
             |reflexivity].
    + split; [discriminate|].
      intros [_ H]. specialize (H e eq_refl). congruence.
Qed.

(** X11.  [open_nat_port] binds before it sends, to the empty address and
    the port it was called with, and sends at most one datagram: the test
    message to the broadcast address on that same port, and only when the
    bind succeeded. *)
Theorem open_nat_port_socket_calls (env : LocalEnv) (port_number : Z) :
  socket_calls (snd (open_nat_port env port_number)) = [] \/
  socket_calls (snd (open_nat_port env port_number))
  = [Bind [] port_number] \/
  (socket_calls (snd (open_nat_port env port_number))
   = [Bind [] port_number; Broadcast message broadcast_addr port_number] /\
   sock_bind env [] port_number = None).
Proof.
  rewrite open_nat_port_cases.
  destruct (socket_socket (net env)); [now left|].
  destruct (sock_bind env [] port_number); [now right; left|].
  destruct (gethostname (net env)) as [name|]; [|now right; left].
  destruct (gethostbyname (net env) name) as [ip|]; [|now right; left].
  destruct (setsockopt (net env)); [now right; left|].
  destruct (sendto (net env) message broadcast_addr port_number);
    [now right; right|].
  cbv zeta. destruct (recvfrom (net env) 0) as [data|e];
    [now right; right|].
  destruct (is_socket_timeout e); now right; right.
Qed.

(** X12.  The script calls [open_nat_port] for port 1235 and nothing else:
    it prints the Success line exactly when that call's conditions hold for
    1235, the Failure line otherwise, and every socket call it makes is for
    port 1235. *)
Theorem main_reports_port_1235 (env : LocalEnv) :
  (snd (main env) = Some (lit "NAT port opening result: Success") <->
   (exists local_ip, local_setup env 1235 local_ip) /\
   (forall e, recvfrom (net env) 0 = Err e -> is_socket_timeout e = true)) /\
  (snd (main env) = Some (lit "NAT port opening result: Success") \/
   snd (main env) = Some (lit "NAT port opening result: Failure")) /\
  (forall ev,
      In ev (socket_calls (fst (main env))) ->
      ev = Bind [] 1235 \/ ev = Broadcast message broadcast_addr 1235).
Proof.
  unfold main, local_setup. rewrite open_nat_port_cases.
  assert (Some (lit "NAT port opening result: Failure")
          <> Some (lit "NAT port opening result: Success")) as Hne
    by (vm_compute; discriminate).
  destruct (socket_socket (net env)) eqn:E1.
  { split; [split; [intros H; now elim Hne
                   |intros [(ip & H & _) _]; discriminate]|].
    split; [now right|intros ev []]. }
  destruct (sock_bind env [] 1235) eqn:E2.
  { split; [split; [intros H; now elim Hne
                   |intros [(ip & _ & H & _) _]; discriminate]|].
    split; [now right|intros ev [<-|[]]; now left]. }
  destruct (gethostname (net env)) as [name|] eqn:E3.
  2:{ split; [split; [intros H; now elim Hne
                     |intros [(ip & _ & _ & (nm & H & _) & _) _];
                      discriminate]|].
      split; [now right|intros ev [<-|[]]; now left]. }
  destruct (gethostbyname (net env) name) as [local_ip|] eqn:E4.
  2:{ split; [split; [intros H; now elim Hne
                     |intros [(ip & _ & _ & (nm & [= <-] & H) & _) _];
                      congruence]|].
      split; [now right|intros ev [<-|[]]; now left]. }
  destruct (setsockopt (net env)) eqn:E5.
  { split; [split; [intros H; now elim Hne
                   |intros [(ip & _ & _ & _ & H & _) _]; discriminate]|].
    split; [now right|intros ev [<-|[]]; now left]. }
  destruct (sendto (net env) message broadcast_addr 1235) eqn:E6.
  { split; [split; [intros H; now elim Hne
                   |intros [(ip & _ & _ & _ & _ & H) _]; discriminate]|].
    split; [now right|intros ev [<-|[<-|[]]]; [now left|now right]]. }
  cbv zeta.
  destruct (recvfrom (net env) 0) as [data|e] eqn:E7.
  - split; [split; [intros _; split; [setup_holds local_ip name E4|discriminate]
                   |reflexivity]|].
    split; [now left|intros ev [<-|[<-|[]]]; [now left|now right]].
  - destruct (is_socket_timeout e) eqn:Et.
    + split; [split; [intros _; split;
                      [setup_holds local_ip name E4|now intros e' [= <-]]
                     |reflexivity]|].
      split; [now left|intros ev [<-|[<-|[]]]; [now left|now right]].
    + split; [split; [intros H; now elim Hne
                     |intros [_ H]; specialize (H e eq_refl); congruence]|].
      split; [now right|intros ev [<-|[<-|[]]]; [now left|now right]].
Qed.

(** ** Concrete runs *)

Example split_location :
  split slash (lit "http://192.168.1.1:5000/desc.xml")
  = [lit "http:"; []; lit "192.168.1.1:5000"; lit "desc.xml"].
Proof. reflexivity. Qed.

Example search_location :
  Re.search (lit "HTTP/1.1 200 OK" ++ [CR; LF] ++ lit "LOCATION: http://h/d"
             ++ [CR; LF] ++ lit "ST: x" ++ [CR; LF])
  = Some (lit "http://h/d").
Proof. reflexivity. Qed.

Example search_takes_first_line :
  Re.search (lit "X-LOCATION: a" ++ [CR; LF] ++ lit "LOCATION: b" ++ [CR; LF])
  = Some (lit "a").
Proof. reflexivity. Qed.

Example search_needs_the_space :
  Re.search (lit "LOCATION:http://h/d" ++ [CR; LF]) = None.
Proof. reflexivity. Qed.

Example of_int_examples :
  of_int 1234 = lit "1234" /\ of_int 0 = lit "0" /\ of_int (-7) = lit "-7".
Proof. repeat split; reflexivity. Qed.

Example decode_rejects_stray_byte :
  Utf8.decode [xff] = None /\ Utf8.decode [xc3; xa9] = Some [233%N].
Proof. split; reflexivity. Qed.

(** The end-to-end scenario: the reply names
    [http://192.168.1.1:5000/desc.xml], the description lists one
    [WANIPConnection] service with control URL [/ctl/IPConn], and the POST
    for port 1234 is answered with 200. *)
Example end_to_end_200 :
  option_map (fun x => (fst x, logs (snd x)))
    (open_upnp_port 5 (Demo.gateway 200) 1234)
  = Some (Returns true,
          [Attempting 1234; SentDiscovery; FoundDevice Demo.location;
           FoundControlURL (Some (lit "/ctl/IPConn")); Opened 1234]).
Proof. vm_compute. reflexivity. Qed.

Example end_to_end_500 :
  option_map (fun x => (fst x, logs (snd x)))
    (open_upnp_port 5 (Demo.gateway 500) 1234)
  = Some (Returns false,
          [Attempting 1234; SentDiscovery; FoundDevice Demo.location;
           FoundControlURL (Some (lit "/ctl/IPConn"));
           FailedToOpen 1234 500]).
Proof. vm_compute. reflexivity. Qed.

Example end_to_end_403 :
  option_map fst (open_upnp_port 5 (Demo.gateway 403) 1234)
  = Some (Returns false).
Proof. vm_compute. reflexivity. Qed.

Example missing_controlURL :
  option_map (fun x => (fst x, logs (snd x)))
    (open_upnp_port 5 (Demo.described [Demo.no_url; Demo.ipconn]) 1234)
  = Some (Returns false,
          [Attempting 1234; SentDiscovery; FoundDevice Demo.location;
           ErrorInOpening AttributeError]).
Proof. vm_compute. reflexivity. Qed.
